(** * Semantic Graph RAG: extraction, graph ingestion and answer synthesis

    A shallow embedding of [semantic_graph_rag.py]: the semantic entity
    extractor ([SemanticEntityExtractor.extract_entities_from_chunk]), the
    graph ingestion loop ([SemanticGraphRAG.ingest_documents_semantically])
    and the chain-of-thought query ([query_with_chain_of_thought]).

    Modelling choices:
    - Python text is a [string], one [ascii] per code point, which covers
      code points below 256.
    - Python values decoded from JSON are of type [json]; the operations
      the code applies to them (truth value, iteration, subscripting,
      [dict.get], a [str] method) fail with the exception Python raises.
    - Effects are in a state and exception monad over a [World]: the
      graph store and the log of requests sent to the completion service.
      An exception carries the world at the moment it is raised, since
      every statement sent to the store commits on its own.
    - The completion service, [json.loads] and the retriever are external
      and enter as section variables.  The service is a function of the
      request: equal requests get equal replies.
    - The store is modelled by the semantics of the four Cypher statements
      the ingestion sends, on the fragment where the spliced type strings
      are symbolic names and the parameters are strings or null; what the
      store does with any other statement is a section variable.
    - Logging, and opening the store session, are taken to succeed and
      are left out. *)

From Stdlib Require Import String Ascii List ZArith Lia Bool Arith.
From Stdlib Require QArith DecimalNat.
From Stdlib Require Import DecimalString SpecFloat.
Import ListNotations.

Local Open Scope string_scope.
Local Open Scope list_scope.

Set Implicit Arguments.

(* ================================================================= *)
(** ** Python values and exceptions *)

(** What [json.loads] produces: [None], [bool], [int], [float], [str],
    [list] and [dict] (an association list, looked up by first match). *)
#[warnings="-register-all"]
Inductive json : Type :=
| JNull
| JBool (b : bool)
| JInt (z : Z)
| JFloat (f : spec_float)
| JStr (s : string)
| JArr (items : list json)
| JObj (members : list (string * json)).

(** The exceptions the modelled code can meet; all derive from
    [Exception], so an [except Exception] clause catches each of them. *)
Inductive exn : Type :=
| APIError (msg : string)
| JSONDecodeError
| AttributeError
| TypeError
| KeyError (key : string)
| IndexError
| RetrievalError (msg : string)
| Neo4jError (code : string).

Definition dq : string := String "034"%char EmptyString.
Definition nl : string := String "010"%char EmptyString.
Definition q (s : string) : string := dq ++ s ++ dq.

Module Py.

(** [str.isspace] on the code points below 256. *)
Definition isspace (c : ascii) : bool :=
  let n := nat_of_ascii c in
  (((9 <=? n) && (n <=? 13)) || ((28 <=? n) && (n <=? 32))
   || (n =? 133) || (n =? 160))%nat.

Fixpoint lstrip (s : string) : string :=
  match s with
  | EmptyString => EmptyString
  | String c s' => if isspace c then lstrip s' else s
  end.

Fixpoint rstrip (s : string) : string :=
  match s with
  | EmptyString => EmptyString
  | String c s' =>
      match rstrip s' with
      | EmptyString => if isspace c then EmptyString else String c EmptyString
      | r => String c r
      end
  end.

(** [s.strip()] *)
Definition strip (s : string) : string := rstrip (lstrip s).

(** [s.startswith(p)] *)
Definition startswith (p s : string) : bool := String.prefix p s.

Fixpoint rev_string (acc s : string) : string :=
  match s with
  | EmptyString => acc
  | String c s' => rev_string (String c acc) s'
  end.

(** [s.split(sep)] for a non-empty [sep]: a left-to-right scan for
    non-overlapping occurrences.  [skip] counts the characters of a
    separator still to be passed over, [cur] is the current piece,
    reversed. *)
Fixpoint split_aux (sep : string) (skip : nat) (cur s : string) : list string :=
  match s with
  | EmptyString => [rev_string EmptyString cur]
  | String c s' =>
      match skip with
      | S k => split_aux sep k cur s'
      | O =>
          if String.prefix sep s
          then rev_string EmptyString cur
                 :: split_aux sep (String.length sep - 1) EmptyString s'
          else split_aux sep 0 (String c cur) s'
      end
  end.

Definition split (sep s : string) : list string :=
  split_aux sep 0 EmptyString s.

(** [sep in s] *)
Fixpoint contains (sep s : string) : bool :=
  match s with
  | EmptyString => String.prefix sep EmptyString
  | String _ s' => String.prefix sep s || contains sep s'
  end.

(** [l[i]] on a list. *)
Definition getitem {A : Type} (l : list A) (i : nat) : exn + A :=
  match nth_error l i with
  | Some a => inr a
  | None => inl IndexError
  end.

Fixpoint lookup (k : string) (d : list (string * json)) : option json :=
  match d with
  | [] => None
  | (k', v) :: d' => if String.eqb k k' then Some v else lookup k d'
  end.

(** [d.get(k, default)]: only a [dict] has the method. *)
Definition get (d : json) (k : string) (default : json) : exn + json :=
  match d with
  | JObj members =>
      match lookup k members with
      | Some v => inr v
      | None => inr default
      end
  | _ => inl AttributeError
  end.

(** [d[k]] with a string key. *)
Definition subscript (d : json) (k : string) : exn + json :=
  match d with
  | JObj members =>
      match lookup k members with
      | Some v => inr v
      | None => inl (KeyError k)
      end
  | _ => inl TypeError
  end.

Definition float_is_zero (f : spec_float) : bool :=
  match f with
  | S754_zero _ => true
  | _ => false
  end.

(** Truth value of an object, as [not x] tests it. *)
Definition truthy (v : json) : bool :=
  match v with
  | JNull => false
  | JBool b => b
  | JInt z => negb (Z.eqb z 0)
  | JFloat f => negb (float_is_zero f)
  | JStr s => negb (String.eqb s EmptyString)
  | JArr items => match items with [] => false | _ => true end
  | JObj members => match members with [] => false | _ => true end
  end.

Fixpoint chars (s : string) : list json :=
  match s with
  | EmptyString => []
  | String c s' => JStr (String c EmptyString) :: chars s'
  end.

(** The items a [for] loop visits: the elements of a list, the
    characters of a string, the keys of a dict. *)
Definition iter (v : json) : exn + list json :=
  match v with
  | JArr items => inr items
  | JStr s => inr (chars s)
  | JObj members => inr (map (fun kv => JStr (fst kv)) members)
  | _ => inl TypeError
  end.

(** The receiver of a [str] method call such as [v.upper()]: a value of
    another class has no such attribute. *)
Definition as_str (v : json) : exn + string :=
  match v with
  | JStr s => inr s
  | _ => inl AttributeError
  end.

(** [str.upper] on one ASCII character. *)
Definition upper_ascii (c : ascii) : ascii :=
  let n := nat_of_ascii c in
  if ((97 <=? n) && (n <=? 122))%nat then ascii_of_nat (n - 32) else c.

(** [s.upper()] for ASCII text. *)
Fixpoint upper (s : string) : string :=
  match s with
  | EmptyString => EmptyString
  | String c s' => String (upper_ascii c) (upper s')
  end.

(** [str(i)] for a non-negative index. *)
Definition str_of_nat (i : nat) : string :=
  NilZero.string_of_uint (Nat.to_uint i).

End Py.

(* ================================================================= *)
(** ** Configuration and the completion service *)

Record AzureSettings : Type := {
  AZURE_OPENAI_ENDPOINT : string;
  AZURE_OPENAI_API_KEY : string;
  AZURE_OPENAI_DEPLOYMENT : string;
  NEO4J_URI : string;
  NEO4J_USERNAME : string;
  NEO4J_PASSWORD : string;
  DOC_DIR : string
}.

Definition default_settings : AzureSettings := {|
  AZURE_OPENAI_ENDPOINT := "ENTER OPENAI ENPOINT URL HERE";
  AZURE_OPENAI_API_KEY := "ENTER OPENAI API KEY HERE";
  AZURE_OPENAI_DEPLOYMENT := "gpt-4o";
  NEO4J_URI := "ENTER NEO4J URL HERE";
  NEO4J_USERNAME := "neo4j";
  NEO4J_PASSWORD := "ENTER NEO4J PASSWORD HERE";
  DOC_DIR := "input-dir"
|}.

(** The arguments of [client.chat.completions.create]. *)
Record ChatRequest : Type := {
  model : string;
  messages : list (string * string);   (* role, content *)
  max_tokens : nat;
  temperature : QArith_base.Q
}.

(** The part of a response the code reads: for each choice, its
    [message.content], which the service may leave as [None]. *)
Record ChatCompletion : Type := {
  choices : list (option string)
}.

(* ================================================================= *)
(** ** The property graph *)

Record Node : Type := {
  node_id : nat;
  labels : list string;
  props : list (string * json)
}.

Record Edge : Type := {
  src : nat;
  rel_type : string;
  dst : nat
}.

Record Graph : Type := {
  nodes : list Node;
  edges : list Edge
}.

Definition empty_graph : Graph := {| nodes := []; edges := [] |}.

(** The world the pipeline acts on: the graph store and the requests sent
    to the completion service, oldest first. *)
Record World : Type := {
  graph : Graph;
  sent : list ChatRequest
}.

Definition record_request (r : ChatRequest) (w : World) : World :=
  {| graph := graph w; sent := sent w ++ [r] |}.

Definition with_graph (g : Graph) (w : World) : World :=
  {| graph := g; sent := sent w |}.

(* ================================================================= *)
(** ** A state and exception monad *)

Inductive Outcome (A : Type) : Type :=
| Returns (a : A) (w : World)
| Raises (e : exn) (w : World).

Arguments Returns {A} a w.
Arguments Raises {A} e w.

Definition M (A : Type) : Type := World -> Outcome A.

Definition ret {A : Type} (a : A) : M A := fun w => Returns a w.

Definition raise {A : Type} (e : exn) : M A := fun w => Raises e w.

Definition bind {A B : Type} (m : M A) (k : A -> M B) : M B :=
  fun w =>
    match m w with
    | Returns a w' => k a w'
    | Raises e w' => Raises e w'
    end.

Definition lift {A : Type} (r : exn + A) : M A :=
  match r with
  | inl e => raise e
  | inr a => ret a
  end.

(** [try: m  except Exception as e: handler e] *)
Definition try_except {A : Type} (m : M A) (handler : exn -> M A) : M A :=
  fun w =>
    match m w with
    | Returns a w' => Returns a w'
    | Raises e w' => handler e w'
    end.

Declare Scope py_scope.
Delimit Scope py_scope with py.
Notation "x <- m ;; k" := (bind m (fun x => k))
  (at level 61, m at next level, right associativity) : py_scope.
Notation "m ;;; k" := (bind m (fun _ => k))
  (at level 61, right associativity) : py_scope.
Local Open Scope py_scope.

(** [for x in xs: body x] *)
Fixpoint for_each {A : Type} (xs : list A) (body : A -> M unit) : M unit :=
  match xs with
  | [] => ret tt
  | x :: xs' => body x ;;; for_each xs' body
  end.

(** [for i, x in enumerate(xs): body i x], counting from [i]. *)
Fixpoint for_enumerate {A : Type} (i : nat) (xs : list A)
    (body : nat -> A -> M unit) : M unit :=
  match xs with
  | [] => ret tt
  | x :: xs' => body i x ;;; for_enumerate (S i) xs' body
  end.

(* ================================================================= *)
(** ** The Cypher statements of the ingestion

    [session.run] receives a statement text built by an f-string and its
    parameters.  A query records the statement's shape, the values spliced
    into its text and the values passed as parameters. *)

Inductive Query : Type :=
| CreateDocument (chunk_id : string) (summary : json)
    (* CREATE (d:Document {chunk_id: $chunk_id, summary: $summary}) *)
| MergeEntity (entity_type : json) (name description : json)
    (* MERGE (e:<type> {name: $name}) SET e.description = $description *)
| LinkDocument (entity_type : string) (chunk_id : string) (name : json)
    (* MATCH (d:Document {chunk_id: $chunk_id}) MATCH (e:<type> {name: $name})
       MERGE (d)-[:HAS_<TYPE>]->(e) *)
| MergeRelationship (rel : json) (from_name to_name : json).
    (* MATCH (a {name: $from_name}) MATCH (b {name: $to_name})
       MERGE (a)-[:<type>]->(b) *)

(** A letter or an underscore. *)
Definition is_letter (c : ascii) : bool :=
  let n := nat_of_ascii c in
  (((65 <=? n) && (n <=? 90)) || ((97 <=? n) && (n <=? 122)) || (n =? 95))%nat.

Definition is_digit (c : ascii) : bool :=
  let n := nat_of_ascii c in ((48 <=? n) && (n <=? 57))%nat.

Fixpoint all_chars (p : ascii -> bool) (s : string) : bool :=
  match s with
  | EmptyString => true
  | String c s' => p c && all_chars p s'
  end.

(** A spliced text that the store reads as one symbolic name: a letter or
    underscore followed by letters, digits and underscores. *)
Definition is_identifier (s : string) : bool :=
  match s with
  | EmptyString => false
  | String c s' => is_letter c && all_chars (fun x => is_letter x || is_digit x) s'
  end.

(** A parameter of the modelled fragment: a string, or null. *)
Definition param (v : json) : option (option string) :=
  match v with
  | JStr s => Some (Some s)
  | JNull => Some None
  | _ => None
  end.

Definition prop (k : string) (n : Node) : option json := Py.lookup k (props n).

Definition has_label (l : string) (n : Node) : bool :=
  existsb (String.eqb l) (labels n).

(** The pattern [{k: $v}] for a string [v]. *)
Definition has_prop (k v : string) (n : Node) : bool :=
  match prop k n with
  | Some (JStr s) => String.eqb s v
  | _ => false
  end.

(** The pattern [{k: $v}]: a null parameter equals nothing. *)
Definition has_param (k : string) (v : option string) (n : Node) : bool :=
  match v with
  | Some s => has_prop k s n
  | None => false
  end.

Definition fresh_id (g : Graph) : nat := S (list_max (map node_id (nodes g))).

Fixpoint remove_prop (k : string) (ps : list (string * json)) : list (string * json) :=
  match ps with
  | [] => []
  | (k', v) :: ps' =>
      if String.eqb k k' then remove_prop k ps' else (k', v) :: remove_prop k ps'
  end.

Fixpoint replace_prop (k : string) (v : json) (ps : list (string * json))
    : list (string * json) :=
  match ps with
  | [] => [(k, v)]
  | (k', v') :: ps' =>
      if String.eqb k k' then (k, v) :: ps' else (k', v') :: replace_prop k v ps'
  end.

(** [SET n.k = $v]: a null value removes the property. *)
Definition set_prop (k : string) (v : option string) (n : Node) : Node :=
  {| node_id := node_id n;
     labels := labels n;
     props := match v with
              | Some s => replace_prop k (JStr s) (props n)
              | None => remove_prop k (props n)
              end |}.

Definition add_node (n : Node) (g : Graph) : Graph :=
  {| nodes := nodes g ++ [n]; edges := edges g |}.

(** [CREATE (d:Document {chunk_id: $chunk_id, summary: $summary})]: always
    a new node; a null summary is not stored. *)
Definition create_document (chunk_id : string) (summary : option string)
    (g : Graph) : Graph :=
  add_node {| node_id := fresh_id g;
              labels := ["Document"];
              props := ("chunk_id", JStr chunk_id)
                       :: match summary with
                          | Some s => [("summary", JStr s)]
                          | None => []
                          end |} g.

Definition entity_match (l name : string) (n : Node) : bool :=
  has_label l n && has_prop "name" name n.

(** [MERGE (e:l {name: $name}) SET e.description = $description]: the
    nodes with label [l] and that name, or one new node when there is
    none; the description is then set on each of them. *)
Definition merge_entity (l name : string) (description : option string)
    (g : Graph) : Graph :=
  let g1 :=
    if existsb (entity_match l name) (nodes g) then g
    else add_node {| node_id := fresh_id g; labels := [l];
                     props := [("name", JStr name)] |} g in
  {| nodes := map (fun n => if entity_match l name n
                            then set_prop "description" description n else n)
                  (nodes g1);
     edges := edges g1 |}.

Definition edge_eqb (e1 e2 : Edge) : bool :=
  Nat.eqb (src e1) (src e2) && String.eqb (rel_type e1) (rel_type e2)
  && Nat.eqb (dst e1) (dst e2).

(** [MERGE (a)-[:t]->(b)] for one matched row: the edge is created only
    when no edge of that type already joins the two nodes. *)
Definition merge_edge (es : list Edge) (e : Edge) : list Edge :=
  if existsb (edge_eqb e) es then es else es ++ [e].

(** Two [MATCH] clauses produce every pair of matches; the [MERGE] runs
    once per pair, in order. *)
Definition merge_edges (t : string) (froms tos : list Node) (g : Graph) : Graph :=
  {| nodes := nodes g;
     edges := fold_left merge_edge
                (map (fun ab => {| src := node_id (fst ab); rel_type := t;
                                   dst := node_id (snd ab) |})
                     (list_prod froms tos))
                (edges g) |}.

Definition link_document (l chunk_id : string) (name : option string)
    (g : Graph) : Graph :=
  merge_edges ("HAS_" ++ Py.upper l)
    (filter (fun n => has_label "Document" n && has_prop "chunk_id" chunk_id n)
            (nodes g))
    (filter (fun n => has_label l n && has_param "name" name n) (nodes g))
    g.

Definition merge_relationship (t : string) (from_name to_name : option string)
    (g : Graph) : Graph :=
  merge_edges t
    (filter (has_param "name" from_name) (nodes g))
    (filter (has_param "name" to_name) (nodes g))
    g.

(** The store on the modelled fragment: spliced types that are symbolic
    names, parameters that are strings or null.  [None] for a statement
    outside the fragment.  A [MERGE] on a null property value is refused
    by the store. *)
Definition cypher (query : Query) (g : Graph) : option (exn + Graph) :=
  match query with
  | CreateDocument chunk_id summary =>
      match param summary with
      | Some s => Some (inr (create_document chunk_id s g))
      | None => None
      end
  | MergeEntity (JStr l) name description =>
      if is_identifier l then
        match param name, param description with
        | Some (Some n), Some d => Some (inr (merge_entity l n d g))
        | Some None, Some _ =>
            Some (inl (Neo4jError "Neo.ClientError.Statement.SemanticError"))
        | _, _ => None
        end
      else None
  | MergeEntity _ _ _ => None
  | LinkDocument l chunk_id name =>
      if is_identifier l then
        match param name with
        | Some n => Some (inr (link_document l chunk_id n g))
        | None => None
        end
      else None
  | MergeRelationship (JStr t) from_name to_name =>
      if is_identifier t then
        match param from_name, param to_name with
        | Some a, Some b => Some (inr (merge_relationship t a b g))
        | _, _ => None
        end
      else None
  | MergeRelationship _ _ _ => None
  end.

(* ================================================================= *)
(** ** Prompts *)

Definition lines (ls : list string) : string := String.concat nl ls.

(** The f-string [extraction_prompt] of the extractor. *)
Definition extraction_prompt (text_chunk : string) : string :=
  lines [
    "You are an expert in SAP HANA on VMware systems. Extract structured information from this technical documentation chunk.";
    "";
    "SCHEMA DEFINITION:";
    "Entity Types:";
    ("- Concept: High-level technical ideas (e.g., " ++ q "NUMA Optimization" ++ ", " ++ q "Memory Management" ++ ")")%string;
    ("- Parameter: Specific config settings (e.g., " ++ q "sched.cpu.affinity" ++ ", " ++ q "numa.nodeAffinity" ++ ") ")%string;
    ("- Component: Software/hardware pieces (e.g., " ++ q "vSphere" ++ ", " ++ q "SAP HANA" ++ ", " ++ q "Guest OS" ++ ")")%string;
    "- Recommendation: Best practice rules or guidelines";
    "";
    "Relationship Types:";
    "- INVOLVES_COMPONENT: Concept involves component";
    "- SETS_PARAMETER: Recommendation sets parameter";
    "- AFFECTS: Parameter affects component";
    "- FOR_CONCEPT: Recommendation for concept";
    "";
    "TEXT CHUNK:";
    text_chunk;
    "";
    "Extract entities and relationships. Output MUST be valid JSON:";
    "";
    "{";
    ("  " ++ q "entities" ++ ": [")%string;
    ("    {" ++ q "type" ++ ": " ++ q "Concept" ++ ", " ++ q "name" ++ ": " ++ q "NUMA Optimization" ++ ", " ++ q "description" ++ ": " ++ q "brief description" ++ "},")%string;
    ("    {" ++ q "type" ++ ": " ++ q "Parameter" ++ ", " ++ q "name" ++ ": " ++ q "numa.nodeAffinity" ++ ", " ++ q "description" ++ ": " ++ q "controls NUMA node assignment" ++ "}")%string;
    "  ],";
    ("  " ++ q "relationships" ++ ": [")%string;
    ("    {" ++ q "from" ++ ": " ++ q "NUMA Optimization" ++ ", " ++ q "to" ++ ": " ++ q "vSphere" ++ ", " ++ q "type" ++ ": " ++ q "INVOLVES_COMPONENT" ++ "},")%string;
    ("    {" ++ q "from" ++ ": " ++ q "Configure NUMA settings" ++ ", " ++ q "to" ++ ": " ++ q "numa.nodeAffinity" ++ ", " ++ q "type" ++ ": " ++ q "SETS_PARAMETER" ++ "}")%string;
    "  ],";
    ("  " ++ q "chunk_summary" ++ ": " ++ q "Brief summary of what this chunk discusses")%string;
    "}";
    "";
    "Focus on SAP HANA performance, VMware configuration, and system optimization concepts."
  ].

(** The f-string [cot_prompt] of the chain-of-thought query. *)
Definition cot_prompt (context question : string) : string :=
  lines [
    "You are an expert SAP HANA on VMware consultant. Answer the question using chain-of-thought reasoning.";
    "";
    "CONTEXT from semantic knowledge graph:";
    context;
    "";
    ("QUESTION: " ++ question)%string;
    "";
    "Think step-by-step:";
    "1. What SAP HANA concepts are involved in this question?";
    "2. What configuration parameters or components are relevant?";
    "3. How do these elements interact in a VMware environment?";
    "4. What specific recommendations apply?";
    "";
    "FINAL ANSWER: Provide a comprehensive response based on your analysis, including specific parameters and recommendations."
  ].

(** The f-string [cot_prompt] of [enhanced_query]. *)
Definition enhanced_cot_prompt (context question : string) : string :=
  lines [
    "You are an expert SAP HANA consultant. Answer the question using chain-of-thought reasoning.";
    "";
    "CONTEXT from SAP HANA on VMware documentation:";
    context;
    "";
    ("QUESTION: " ++ question)%string;
    "";
    "Think step-by-step:";
    "1. What SAP HANA concepts are involved in this question?";
    "2. What configuration parameters or components are relevant?";
    "3. How do these elements interact in a VMware environment?";
    "4. What specific recommendations apply?";
    "";
    "FINAL ANSWER: Provide a comprehensive response based on your analysis."
  ].

(** [s[:n]] *)
Definition slice_to (n : nat) (s : string) : string := substring 0 n s.

(** [f"{'='*80}"] *)
Definition rule : string := String.concat EmptyString (repeat "=" 80).

(** [f"{response}"] for the value the query returns: a string, or [None]. *)
Definition response_text (response : option string) : string :=
  match response with
  | Some s => s
  | None => "None"
  end.

(** The questions [main] asks. *)
Definition test_queries : list string := [
  "What parameters should I check to optimize SAP HANA performance on VMware vSphere?";
  "Which components are involved in setting up SAP HANA and VMware according to best practice?";
  "What are the NUMA configuration recommendations for SAP HANA?";
  "How should I configure CPU affinity settings?"
].

(* ================================================================= *)
(** ** A decoder for a fragment of JSON

    The development is parametric in the JSON decoder.  To run examples
    it is instantiated with this decoder, which reads objects, arrays,
    strings without escapes, integers and the three literals, and refuses
    every other text (floats and escaped strings included). *)

Module MiniJson.

Definition is_ws (c : ascii) : bool :=
  let n := nat_of_ascii c in ((n =? 32) || (n =? 9) || (n =? 10) || (n =? 13))%nat.

Fixpoint skip_ws (s : string) : string :=
  match s with
  | EmptyString => EmptyString
  | String c s' => if is_ws c then skip_ws s' else s
  end.

(** The characters up to the closing quote, and the text after it. *)
Fixpoint read_string (s : string) : option (string * string) :=
  match s with
  | EmptyString => None
  | String c s' =>
      if Ascii.eqb c "034" then Some (EmptyString, s')
      else if Ascii.eqb c "092" || (nat_of_ascii c <? 32)%nat then None
      else match read_string s' with
           | Some (body, rest) => Some (String c body, rest)
           | None => None
           end
  end.

Fixpoint read_digits (acc : Z) (s : string) : Z * string :=
  match s with
  | EmptyString => (acc, s)
  | String c s' =>
      if is_digit c
      then read_digits (10 * acc + Z.of_nat (nat_of_ascii c - 48)) s'
      else (acc, s)
  end.

Definition starts_fraction (s : string) : bool :=
  match s with
  | String c _ => Ascii.eqb c "." || Ascii.eqb c "e" || Ascii.eqb c "E"
  | EmptyString => false
  end.

Definition read_int (negative : bool) (s : string) : option (json * string) :=
  match s with
  | String c s' =>
      if is_digit c then
        let '(z, rest) :=
          if Ascii.eqb c "0" then (0%Z, s') else read_digits 0 s in
        if starts_fraction rest then None
        else Some (JInt (if negative then (- z)%Z else z), rest)
      else None
  | EmptyString => None
  end.

Definition literal (word : string) (v : json) (s : string) : option (json * string) :=
  if String.prefix word s
  then Some (v, substring (String.length word) (String.length s - String.length word) s)
  else None.

Fixpoint value (fuel : nat) (s : string) : option (json * string) :=
  match fuel with
  | O => None
  | S fuel' =>
      match skip_ws s with
      | EmptyString => None
      | String c r =>
          if Ascii.eqb c "{" then
            match skip_ws r with
            | String c' r' =>
                if Ascii.eqb c' "}" then Some (JObj [], r')
                else members fuel' (String c' r') []
            | EmptyString => None
            end
          else if Ascii.eqb c "[" then
            match skip_ws r with
            | String c' r' =>
                if Ascii.eqb c' "]" then Some (JArr [], r')
                else elements fuel' (String c' r') []
            | EmptyString => None
            end
          else if Ascii.eqb c "034" then
            match read_string r with
            | Some (body, rest) => Some (JStr body, rest)
            | None => None
            end
          else if Ascii.eqb c "-" then read_int true r
          else if is_digit c then read_int false (String c r)
          else if Ascii.eqb c "t" then literal "true" (JBool true) (String c r)
          else if Ascii.eqb c "f" then literal "false" (JBool false) (String c r)
          else if Ascii.eqb c "n" then literal "null" JNull (String c r)
          else None
      end
  end
with members (fuel : nat) (s : string) (acc : list (string * json))
    : option (json * string) :=
  match fuel with
  | O => None
  | S fuel' =>
      match skip_ws s with
      | String c r =>
          if Ascii.eqb c "034" then
            match read_string r with
            | Some (key, r1) =>
                match skip_ws r1 with
                | String c1 r2 =>
                    if Ascii.eqb c1 ":" then
                      match value fuel' r2 with
                      | Some (v, r3) =>
                          match skip_ws r3 with
                          | String c3 r4 =>
                              if Ascii.eqb c3 "," then
                                members fuel' r4 (replace_prop key v acc)
                              else if Ascii.eqb c3 "}" then
                                Some (JObj (replace_prop key v acc), r4)
                              else None
                          | EmptyString => None
                          end
                      | None => None
                      end
                    else None
                | EmptyString => None
                end
            | None => None
            end
          else None
      | EmptyString => None
      end
  end
with elements (fuel : nat) (s : string) (acc : list json)
    : option (json * string) :=
  match fuel with
  | O => None
  | S fuel' =>
      match value fuel' s with
      | Some (v, r) =>
          match skip_ws r with
          | String c r' =>
              if Ascii.eqb c "," then elements fuel' r' (acc ++ [v])
              else if Ascii.eqb c "]" then Some (JArr (acc ++ [v]), r')
              else None
          | EmptyString => None
          end
      | None => None
      end
  end.

(** One JSON value, surrounded by optional white space. *)
Definition loads (s : string) : option json :=
  match value (2 * String.length s + 2) s with
  | Some (v, rest) =>
      match skip_ws rest with
      | EmptyString => Some v
      | _ => None
      end
  | None => None
  end.

End MiniJson.

(* ================================================================= *)
(** ** The pipeline *)

(** The dataclass [EntityExtractionResult].  Its fields hold whatever the
    decoded reply holds under the three keys; nothing checks them against
    the annotated types. *)
Record EntityExtractionResult : Type := {
  entities : json;
  relationships : json;
  chunk_summary : json
}.

(** A loaded document chunk; the pipeline reads its [text] only. *)
Record Document : Type := {
  text : string
}.

(** The fallback of the extractor's [except] clause. *)
Definition fallback : EntityExtractionResult :=
  {| entities := JArr []; relationships := JArr []; chunk_summary := JStr "" |}.

(** [response.choices[0].message.content] *)
Definition message_content (response : ChatCompletion) : exn + option string :=
  Py.getitem (choices response) 0.

(** [content.strip()]: [None] has no such method. *)
Definition strip_method (content : option string) : exn + string :=
  match content with
  | Some s => inr (Py.strip s)
  | None => inl AttributeError
  end.

(** [[
    if json_str.startswith('```json'):
        json_str = json_str.split('```json')[1].split('```')[0]
    ]] *)
Definition strip_code_fence (json_str : string) : exn + string :=
  if Py.startswith "```json" json_str then
    match Py.getitem (Py.split "```json" json_str) 1 with
    | inl e => inl e
    | inr after => Py.getitem (Py.split "```" after) 0
    end
  else inr json_str.

(* ================================================================= *)
(** ** Sample replies, chunks and collaborators

    Concrete instances of the external collaborators, on which the
    pipeline is run in the examples that follow the general results. *)

Definition member (k v : string) : string := (q k ++ ": " ++ v)%string.

Definition object (ms : list string) : string :=
  ("{" ++ String.concat ", " ms ++ "}")%string.

Definition array (xs : list string) : string :=
  ("[" ++ String.concat ", " xs ++ "]")%string.

(** A reply of the requested shape: two entities, one relationship. *)
Definition reply_memory : string :=
  object [
    member "entities" (array [
      object [member "type" (q "Concept"); member "name" (q "Memory Management");
              member "description" (q "how memory is sized")];
      object [member "type" (q "Component"); member "name" (q "vSphere")]]);
    member "relationships" (array [
      object [member "from" (q "Memory Management"); member "to" (q "vSphere");
              member "type" (q "INVOLVES_COMPONENT")]]);
    member "chunk_summary" (q "Memory sizing on vSphere")].

Definition reply_numa : string :=
  object [
    member "entities" (array [
      object [member "type" (q "Parameter"); member "name" (q "numa.nodeAffinity")];
      object [member "type" (q "Component"); member "name" (q "vSphere")]]);
    member "relationships" (array [
      object [member "from" (q "numa.nodeAffinity"); member "to" (q "vSphere");
              member "type" (q "AFFECTS")]]);
    member "chunk_summary" (q "NUMA node affinity")].

(** An entity whose name is [null]. *)
Definition reply_null_name : string :=
  object [
    member "entities" (array [
      object [member "type" (q "Concept"); member "name" "null"]]);
    member "relationships" (array []);
    member "chunk_summary" (q "untitled")].

(** A reply that leaves out the relationships and the summary. *)
Definition reply_entities_only : string :=
  object [
    member "entities" (array [
      object [member "type" (q "Component"); member "name" (q "Guest OS")]])].

Definition reply_no_entities : string :=
  object [
    member "entities" (array []);
    member "relationships" (array []);
    member "chunk_summary" (q "table of contents")].

Definition reply_prose : string := "Sure! Here are the entities I found.".

(** The first reply inside a fence tagged [json], and inside a bare fence. *)
Definition reply_tagged_fence : string :=
  ("```json" ++ nl ++ reply_memory ++ nl ++ "```" ++ nl)%string.

(** Two tagged blocks in one reply. *)
Definition reply_two_fences : string :=
  ("```json" ++ nl ++ reply_memory ++ nl ++ "```" ++ nl
   ++ "and a second block:" ++ nl
   ++ "```json" ++ nl ++ reply_numa ++ nl ++ "```")%string.

Definition reply_bare_fence : string :=
  ("```" ++ nl ++ reply_memory ++ nl ++ "```")%string.

Definition chunk_memory : Document := {| text := "Memory management on vSphere" |}.
Definition chunk_numa : Document := {| text := "NUMA node affinity" |}.
Definition chunk_contents : Document := {| text := "Table of contents" |}.
Definition chunk_untitled : Document := {| text := "(untitled section)" |}.

Definition replies (content : string) : exn + ChatCompletion :=
  inr {| choices := [Some content] |}.

(** A completion service that answers the extraction prompt of each
    scripted chunk with the scripted outcome, and fails on anything else. *)
Definition scripted_client (script : list (Document * (exn + ChatCompletion)))
    (request : ChatRequest) : exn + ChatCompletion :=
  match messages request with
  | [(_, prompt)] =>
      match find (fun entry => String.eqb prompt (extraction_prompt (text (fst entry))))
                 script with
      | Some entry => snd entry
      | None => inl (APIError "Connection error.")
      end
  | _ => inl (APIError "Connection error.")
  end.

Definition sample_client : ChatRequest -> exn + ChatCompletion :=
  scripted_client [
    (chunk_memory, replies reply_memory);
    (chunk_numa, replies reply_numa);
    (chunk_contents, replies reply_no_entities);
    (chunk_untitled, replies reply_null_name)].

(** A store that refuses every statement outside the modelled fragment. *)
Definition rejecting_store (query : Query) (g : Graph) : exn + Graph :=
  inl (Neo4jError "Neo.ClientError.Statement.SyntaxError").

(** A retriever that returns two fragments. *)
Definition sample_retrieve (question : string) (g : Graph) : exn + list string :=
  inr ["Memory Management"; "numa.nodeAffinity"].

(** A service that is down. *)
Definition failing_client (request : ChatRequest) : exn + ChatCompletion :=
  inl (APIError "Request timed out.").

Definition initial_world : World := {| graph := empty_graph; sent := [] |}.

(** A world whose graph has two nodes named [vSphere], of different
    types, a parameter node and a chunk node. *)
Definition named_world : World :=
  {| graph :=
       {| nodes := [
            {| node_id := 1; labels := ["Document"];
               props := [("chunk_id", JStr "chunk_0"); ("summary", JStr "NUMA")] |};
            {| node_id := 2; labels := ["Component"];
               props := [("name", JStr "vSphere")] |};
            {| node_id := 3; labels := ["Concept"];
               props := [("name", JStr "vSphere")] |};
            {| node_id := 4; labels := ["Parameter"];
               props := [("name", JStr "numa.nodeAffinity")] |}];
          edges := [] |};
     sent := [] |}.


Definition dangling_relationship : json :=
  JObj [("from", JStr "Configure NUMA settings"); ("to", JStr "numa.nodeAffinity");
        ("type", JStr "SETS_PARAMETER")].

(** Replies that decode, but not to what the prompt asks for. *)
Definition reply_list : string := "[1, 2]".

Definition reply_null_entities : string :=
  object [member "entities" "null"; member "chunk_summary" (q "cover page")].


Definition chunk_cover : Document := {| text := "Cover page" |}.

Definition null_relationship : json :=
  JObj [("from", JNull); ("to", JStr "vSphere"); ("type", JStr "AFFECTS")].

Definition described_entity : json :=
  JObj [("type", JStr "Component"); ("name", JStr "vSphere");
        ("description", JStr "the hypervisor platform")].

(** A retriever that cannot reach the store. *)
Definition unreachable_retrieve (question : string) (g : Graph)
    : exn + list string :=
  inl (RetrievalError "graph store unavailable").

(** A service that answers every request with the same text, and one that
    answers with no choice at all. *)
Definition answering_client (request : ChatRequest) : exn + ChatCompletion :=
  replies "Check numa.nodeAffinity and sched.cpu.affinity.".

Definition silent_client (request : ChatRequest) : exn + ChatCompletion :=
  inr {| choices := [] |}.

(** A rendering of exceptions as text. *)
Definition sample_exception_text (e : exn) : string :=
  match e with
  | APIError msg => msg
  | RetrievalError msg => msg
  | Neo4jError code => code
  | KeyError key => ("'" ++ key ++ "'")%string
  | IndexError => "list index out of range"
  | JSONDecodeError => "Expecting value"
  | AttributeError => "object has no attribute"
  | TypeError => "object is not subscriptable"
  end.

Section Pipeline.

Set Default Proof Using "Type".

Variable config : AzureSettings.

(** [client.chat.completions.create]: a response, or an exception. *)
Variable chat_completions_create : ChatRequest -> exn + ChatCompletion.

(** [json.loads]: [None] when it raises. *)
Variable json_loads : string -> option json.

(** [query_engine.retrieve]: the texts of the retrieved nodes. *)
Variable retrieve : string -> Graph -> exn + list string.

(** The store on statements outside the modelled fragment. *)
Variable store_other : Query -> Graph -> exn + Graph.

(** [str(e)], as an f-string renders an exception. *)
Variable exception_text : exn -> string.

Definition create (request : ChatRequest) : M ChatCompletion :=
  fun w =>
    match chat_completions_create request with
    | inl e => Raises e (record_request request w)
    | inr response => Returns response (record_request request w)
    end.

Definition loads (s : string) : exn + json :=
  match json_loads s with
  | Some v => inr v
  | None => inl JSONDecodeError
  end.

Definition extraction_request (text_chunk : string) : ChatRequest :=
  {| model := AZURE_OPENAI_DEPLOYMENT config;
     messages := [("user", extraction_prompt text_chunk)];
     max_tokens := 1500;
     temperature := QArith_base.Qmake 1 10 |}.

Definition extract_entities_from_chunk (text_chunk : string)
    : M EntityExtractionResult :=
  try_except
    (response <- create (extraction_request text_chunk) ;;
     content <- lift (message_content response) ;;
     json_str <- lift (strip_method content) ;;
     json_str <- lift (strip_code_fence json_str) ;;
     extracted_data <- lift (loads json_str) ;;
     ents <- lift (Py.get extracted_data "entities" (JArr [])) ;;
     rels <- lift (Py.get extracted_data "relationships" (JArr [])) ;;
     summary <- lift (Py.get extracted_data "chunk_summary" (JStr "")) ;;
     ret {| entities := ents; relationships := rels; chunk_summary := summary |})
    (fun _ => ret fallback).

(** [session.run]: each statement commits on its own; a refused
    statement leaves the graph as it was. *)
Definition session_run (query : Query) : M unit :=
  fun w =>
    let outcome :=
      match cypher query (graph w) with
      | Some r => r
      | None => store_other query (graph w)
      end in
    match outcome with
    | inr g => Returns tt (with_graph g w)
    | inl e => Raises e w
    end.

(** The body of [for entity in extraction.entities]. *)
Definition ingest_entity (chunk_id : string) (entity : json) : M unit :=
  entity_type <- lift (Py.subscript entity "type") ;;
  name <- lift (Py.subscript entity "name") ;;
  description <- lift (Py.get entity "description" (JStr "")) ;;
  session_run (MergeEntity entity_type name description) ;;;
  entity_type <- lift (Py.subscript entity "type") ;;
  label <- lift (Py.as_str entity_type) ;;
  name <- lift (Py.subscript entity "name") ;;
  session_run (LinkDocument label chunk_id name).

(** The body of [for rel in extraction.relationships]. *)
Definition ingest_relationship (rel : json) : M unit :=
  rel_type <- lift (Py.subscript rel "type") ;;
  from_name <- lift (Py.subscript rel "from") ;;
  to_name <- lift (Py.subscript rel "to") ;;
  session_run (MergeRelationship rel_type from_name to_name).

Definition chunk_id_of (i : nat) : string := "chunk_" ++ Py.str_of_nat i.

(** The body of [for i, doc in enumerate(documents[:20])]. *)
Definition ingest_chunk (i : nat) (doc : Document) : M unit :=
  extraction <- extract_entities_from_chunk (text doc) ;;
  if negb (Py.truthy (entities extraction)) then ret tt
  else
    session_run (CreateDocument (chunk_id_of i) (chunk_summary extraction)) ;;;
    ents <- lift (Py.iter (entities extraction)) ;;
    for_each ents (ingest_entity (chunk_id_of i)) ;;;
    rels <- lift (Py.iter (relationships extraction)) ;;
    for_each rels ingest_relationship.

Definition ingest_documents_semantically (documents : list Document) : M unit :=
  for_enumerate 0 (firstn 20 documents) ingest_chunk.

(** [setup_graph_store] clears the store: [MATCH (n) DETACH DELETE n]. *)
Definition clear_graph : M unit :=
  fun w => Returns tt (with_graph empty_graph w).

Definition cot_request (question context : string) : ChatRequest :=
  {| model := AZURE_OPENAI_DEPLOYMENT config;
     messages := [("user", cot_prompt context question)];
     max_tokens := 800;
     temperature := QArith_base.Qmake 3 10 |}.

Definition query_engine_retrieve (question : string) : M (list string) :=
  fun w =>
    match retrieve question (graph w) with
    | inl e => Raises e w
    | inr fragments => Returns fragments w
    end.

Definition context_of (retrieved_context : list string) : string :=
  String.concat nl (map (fun node_text => "- " ++ node_text)%string retrieved_context).

Definition query_with_chain_of_thought (question : string) : M (option string) :=
  retrieved_context <- query_engine_retrieve question ;;
  response <- create (cot_request question (context_of retrieved_context)) ;;
  lift (message_content response).

(** The result of extracting a chunk, read off a run of the extractor:
    the run does not depend on the world it starts in. *)
Definition extraction_of (text_chunk : string) : EntityExtractionResult :=
  match extract_entities_from_chunk text_chunk
          {| graph := empty_graph; sent := [] |} with
  | Returns r _ => r
  | Raises _ _ => fallback
  end.

(** The field of a decoded object, or its default when the key is absent. *)
Definition field_or (default : json) (k : string) (members : list (string * json)) : json :=
  match Py.lookup k members with
  | Some v => v
  | None => default
  end.

Definition parsed_result (members : list (string * json)) : EntityExtractionResult :=
  {| entities := field_or (JArr []) "entities" members;
     relationships := field_or (JArr []) "relationships" members;
     chunk_summary := field_or (JStr "") "chunk_summary" members |}.

(** The text up to the first occurrence of [sep]: the first piece of
    [s.split(sep)]. *)
Fixpoint before (sep s : string) : string :=
  match s with
  | EmptyString => EmptyString
  | String c s' => if String.prefix sep s then EmptyString else String c (before sep s')
  end.

(** How a stripped reply carries its payload: as it is, when it does not
    open with the tagged fence; or between the tagged opening fence and
    the closing fence, when that closing fence is the first triple
    backtick after the opening and the tagged fence does not start again
    inside the closing fence, that is, one or two characters into it.
    What follows the closing fence is otherwise free. *)
Inductive reply_payload : string -> string -> Prop :=
| payload_plain (s : string) :
    Py.startswith "```json" s = false ->
    reply_payload s s
| payload_fenced (inner rest : string) :
    Py.contains "```" (inner ++ "``") = false ->
    String.prefix "```json" ("``" ++ rest) = false ->
    String.prefix "```json" ("`" ++ rest) = false ->
    reply_payload ("```json" ++ inner ++ "```" ++ rest) inner.

(** The top-level fields of a decoded reply: those of a JSON object; a
    value of another kind has none. *)
Definition top_level (v : json) : list (string * json) :=
  match v with
  | JObj members => members
  | _ => []
  end.

(** The world in which a run ends, normally or by an exception. *)
Definition final_world {A : Type} (o : Outcome A) : World :=
  match o with
  | Returns _ w => w
  | Raises _ w => w
  end.

(** **** Extraction output of the shape the prompt asks for

    An entity is an object whose [type] is a symbolic name and whose
    [name] is a string, with an optional string or null [description];
    a relationship is an object whose [type] is a symbolic name and whose
    [from] and [to] are strings or null. *)

Definition entity_fields (entity : json) : option (string * string * option string) :=
  match entity with
  | JObj members =>
      match Py.lookup "type" members, Py.lookup "name" members,
            param (field_or (JStr "") "description" members) with
      | Some (JStr l), Some (JStr n), Some d =>
          if is_identifier l then Some (l, n, d) else None
      | _, _, _ => None
      end
  | _ => None
  end.

Definition relationship_fields (rel : json)
    : option (string * option string * option string) :=
  match rel with
  | JObj members =>
      match Py.lookup "type" members, Py.lookup "from" members,
            Py.lookup "to" members with
      | Some (JStr t), Some a, Some b =>
          match param a, param b with
          | Some a', Some b' => if is_identifier t then Some (t, a', b') else None
          | _, _ => None
          end
      | _, _, _ => None
      end
  | _ => None
  end.

Fixpoint all_fields {A : Type} (f : json -> option A) (items : list json)
    : option (list A) :=
  match items with
  | [] => Some []
  | x :: items' =>
      match f x, all_fields f items' with
      | Some a, Some l => Some (a :: l)
      | _, _ => None
      end
  end.

Record ChunkFields : Type := {
  summary_field : option string;
  entity_list : list (string * string * option string);
  relationship_list : list (string * option string * option string)
}.

Definition extraction_fields (r : EntityExtractionResult) : option ChunkFields :=
  match entities r, relationships r, param (chunk_summary r) with
  | JArr es, JArr rs, Some s =>
      match all_fields entity_fields es, all_fields relationship_fields rs with
      | Some el, Some rl =>
          Some {| summary_field := s; entity_list := el; relationship_list := rl |}
      | _, _ => None
      end
  | _, _, _ => None
  end.

Definition well_formed (r : EntityExtractionResult) : bool :=
  match extraction_fields r with
  | Some _ => true
  | None => false
  end.

(** What the statements of one chunk do to the graph, for output of that
    shape. *)
Definition entity_step (chunk_id : string) (g : Graph)
    (e : string * string * option string) : Graph :=
  let '(l, n, d) := e in
  link_document l chunk_id (Some n) (merge_entity l n d g).

Definition relationship_step (g : Graph)
    (r : string * option string * option string) : Graph :=
  let '(t, a, b) := r in merge_relationship t a b g.

Definition chunk_graph (i : nat) (c : ChunkFields) (g : Graph) : Graph :=
  match entity_list c with
  | [] => g
  | _ =>
      fold_left relationship_step (relationship_list c)
        (fold_left (entity_step (chunk_id_of i)) (entity_list c)
           (create_document (chunk_id_of i) (summary_field c) g))
  end.

Fixpoint run_graph (i : nat) (cs : list ChunkFields) (g : Graph) : Graph :=
  match cs with
  | [] => g
  | c :: cs' => run_graph (S i) cs' (chunk_graph i c g)
  end.

(** The number of nodes with label [l] and name [n]. *)
Definition count_entity (l n : string) (g : Graph) : nat :=
  length (filter (entity_match l n) (nodes g)).

(** At most one node per (type, name) pair. *)
Definition unique_entities (g : Graph) : Prop :=
  forall l n, count_entity l n g <= 1.

(** The chunks of a run that get a Document node. *)
Definition chunks_with_entities (documents : list Document) : nat :=
  length (filter (fun d => Py.truthy (entities (extraction_of (text d))))
                 (firstn 20 documents)).

(** A computation that sends nothing to the completion service. *)
Definition keeps_sent {A : Type} (m : M A) : Prop :=
  forall w, sent (final_world (m w)) = sent w.

(** The requests of the chunks [ds], in order. *)
Definition requests_of (ds : list Document) : list ChatRequest :=
  map (fun d => extraction_request (text d)) ds.

(** The edge a relationship of type [t] puts between two nodes. *)
Definition edge_between (t : string) (a b : Node) : Edge :=
  {| src := node_id a; rel_type := t; dst := node_id b |}.

(** The fields of a chunk's extraction, when it has the shape the prompt
    asks for. *)
Definition fields_of (d : Document) : ChunkFields :=
  match extraction_fields (extraction_of (text d)) with
  | Some c => c
  | None => {| summary_field := None; entity_list := []; relationship_list := [] |}
  end.

(** [g'] has the entity nodes of [g] and possibly more, and keeps what
    holds of [g]: one node per (type, name) pair, no edge stored twice. *)
Definition grows (g g' : Graph) : Prop :=
  (forall l n, count_entity l n g <= count_entity l n g')
  /\ (unique_entities g -> unique_entities g')
  /\ (NoDup (edges g) -> NoDup (edges g')).

(** [g'] has exactly the entity nodes of [g], and [k] nodes more. *)
Definition settled (k : nat) (g g' : Graph) : Prop :=
  (forall l n, count_entity l n g' = count_entity l n g)
  /\ length (nodes g') = length (nodes g) + k.

Definition has_entities (c : ChunkFields) : bool :=
  match entity_list c with
  | [] => false
  | _ => true
  end.

(** [g'] keeps every edge of [g] and every node of [g], with its
    identifier, its labels and all its properties except, possibly, the
    description. *)
Definition keeps (g g' : Graph) : Prop :=
  incl (edges g) (edges g')
  /\ forall x, In x (nodes g) ->
       exists x', In x' (nodes g')
         /\ node_id x' = node_id x
         /\ labels x' = labels x
         /\ forall k, String.eqb k "description" = false -> prop k x' = prop k x.

(** The graph has a Document node for the chunk [cid]. *)
Definition has_document (cid : string) (g : Graph) : Prop :=
  exists dn, In dn (nodes g)
    /\ has_label "Document" dn = true /\ has_prop "chunk_id" cid dn = true.

(** A Document node of the chunk [cid] is linked to a node of type [l]
    named [n] by the edge that the entity's type gives. *)
Definition linked (cid l n : string) (g : Graph) : Prop :=
  exists dn e, In dn (nodes g) /\ In e (nodes g)
    /\ has_label "Document" dn = true /\ has_prop "chunk_id" cid dn = true
    /\ entity_match l n e = true
    /\ In (edge_between ("HAS_" ++ Py.upper l) dn e) (edges g).

(** **** [enhanced_query.py] *)

(** [[
    "\n".join([chunk.text[:500] for chunk in context_chunks[:5]])
    ]] *)
Definition enhanced_context (context_chunks : list Document) : string :=
  String.concat nl (map (fun chunk => slice_to 500 (text chunk))
                        (firstn 5 context_chunks)).

Definition enhanced_request (question context : string) : ChatRequest :=
  {| model := AZURE_OPENAI_DEPLOYMENT config;
     messages := [("user", enhanced_cot_prompt context question)];
     max_tokens := 800;
     temperature := QArith_base.Qmake 3 10 |}.

Definition enhanced_query (question : string) (context_chunks : list Document)
    : M (option string) :=
  response <- create (enhanced_request question (enhanced_context context_chunks)) ;;
  lift (message_content response).

(** **** The query loop of [main]

    A round returns the texts it passes to [print], in order. *)
Definition query_round (query : string) : M (list string) :=
  let header := [(nl ++ rule)%string; ("QUERY: " ++ query)%string; rule] in
  try_except
    (response <- query_with_chain_of_thought query ;;
     ret (header
          ++ [("SEMANTIC GRAPH RAG RESPONSE:" ++ nl ++ response_text response)%string]))
    (fun e => ret (header ++ [("Error: " ++ exception_text e)%string])).

(** [for query in test_queries: ...] *)
Fixpoint query_loop (queries : list string) : M (list string) :=
  match queries with
  | [] => ret []
  | query :: queries' =>
      printed <- query_round query ;;
      rest <- query_loop queries' ;;
      ret (printed ++ rest)
  end.

(** **** Refused writes

    What the store answers to a statement: the modelled fragment answers
    for itself, any other statement is left to the store at hand. *)
Definition store_outcome (query : Query) (g : Graph) : exn + Graph :=
  match cypher query g with
  | Some r => r
  | None => store_other query g
  end.

(** The store refuses, with [e], one of the two statements of an entity:
    the [MERGE] of its node, or the [MERGE] of its link to the chunk.  The
    last index is the world in which the refused statement was sent. *)
Inductive entity_write_fails (chunk_id : string) (entity : json) (w : World)
    (e : exn) : World -> Prop :=
| merge_refused (entity_type name description : json) :
    Py.subscript entity "type" = inr entity_type ->
    Py.subscript entity "name" = inr name ->
    Py.get entity "description" (JStr "") = inr description ->
    store_outcome (MergeEntity entity_type name description) (graph w) = inl e ->
    entity_write_fails chunk_id entity w e w
| link_refused (entity_type name description : json) (label : string)
    (g1 : Graph) :
    Py.subscript entity "type" = inr entity_type ->
    Py.subscript entity "name" = inr name ->
    Py.get entity "description" (JStr "") = inr description ->
    store_outcome (MergeEntity entity_type name description) (graph w) = inr g1 ->
    Py.as_str entity_type = inr label ->
    store_outcome (LinkDocument label chunk_id name) g1 = inl e ->
    entity_write_fails chunk_id entity w e (with_graph g1 w).

(** The store refuses the statement of a relationship. *)
Inductive relationship_write_fails (rel : json) (w : World) (e : exn) :
    World -> Prop :=
| relationship_refused (rel_type from_name to_name : json) :
    Py.subscript rel "type" = inr rel_type ->
    Py.subscript rel "from" = inr from_name ->
    Py.subscript rel "to" = inr to_name ->
    store_outcome (MergeRelationship rel_type from_name to_name) (graph w) = inl e ->
    relationship_write_fails rel w e w.

(** The store refuses one of the statements sent for chunk [i], whose
    extraction is [r]: the [CREATE] of its Document node; a statement of
    one of its entities, those before it written; or the statement of one
    of its relationships, all entities and the relationships before it
    written. *)
Inductive chunk_write_fails (i : nat) (r : EntityExtractionResult) (w : World)
    (e : exn) : World -> Prop :=
| document_refused :
    store_outcome (CreateDocument (chunk_id_of i) (chunk_summary r)) (graph w)
    = inl e ->
    chunk_write_fails i r w e w
| entity_refused (g1 : Graph) (done rest : list json) (entity : json)
    (w1 w2 : World) :
    store_outcome (CreateDocument (chunk_id_of i) (chunk_summary r)) (graph w)
    = inr g1 ->
    Py.iter (entities r) = inr (done ++ entity :: rest) ->
    for_each done (ingest_entity (chunk_id_of i)) (with_graph g1 w)
    = Returns tt w1 ->
    entity_write_fails (chunk_id_of i) entity w1 e w2 ->
    chunk_write_fails i r w e w2
| relationship_refused_in_chunk (g1 : Graph) (ents done rest : list json)
    (rel : json) (w1 w2 w3 : World) :
    store_outcome (CreateDocument (chunk_id_of i) (chunk_summary r)) (graph w)
    = inr g1 ->
    Py.iter (entities r) = inr ents ->
    for_each ents (ingest_entity (chunk_id_of i)) (with_graph g1 w)
    = Returns tt w1 ->
    Py.iter (relationships r) = inr (done ++ rel :: rest) ->
    for_each done ingest_relationship w1 = Returns tt w2 ->
    relationship_write_fails rel w2 e w3 ->
    chunk_write_fails i r w e w3.

(* ----------------------------------------------------------------- *)
(** *** Text lemmas *)

Lemma prefix_empty (s : string) : String.prefix EmptyString s = true.
Proof. destruct s; reflexivity. Qed.

Lemma append_empty (s : string) : (s ++ EmptyString)%string = s.
Proof. induction s; simpl; congruence. Qed.

Lemma append_assoc_string (a b c : string) :
  ((a ++ b) ++ c)%string = (a ++ (b ++ c))%string.
Proof. induction a; simpl; congruence. Qed.

Lemma rev_string_acc (s acc : string) :
  Py.rev_string acc s = (Py.rev_string EmptyString s ++ acc)%string.
Proof.
  revert acc. induction s as [|c s IH]; intro acc; simpl.
  - reflexivity.
  - rewrite (IH (String c acc)), (IH (String c EmptyString)).
    rewrite append_assoc_string. reflexivity.
Qed.

Lemma split_aux_first (sep : string) (s cur : string) :
  nth_error (Py.split_aux sep 0 cur s) 0
  = Some (Py.rev_string EmptyString cur ++ before sep s)%string.
Proof.
  revert cur. induction s as [|c s IH]; intro cur.
  - simpl. rewrite append_empty. reflexivity.
  - cbn [Py.split_aux before]. destruct (String.prefix sep (String c s)).
    + simpl. rewrite append_empty. reflexivity.
    + rewrite IH. simpl. rewrite (rev_string_acc cur (String c EmptyString)).
      rewrite append_assoc_string. reflexivity.
Qed.

Lemma split_first (sep s : string) :
  Py.getitem (Py.split sep s) 0 = inr (before sep s).
Proof.
  unfold Py.getitem, Py.split. rewrite split_aux_first. reflexivity.
Qed.

Lemma split_after_fence (t : string) :
  Py.getitem (Py.split "```json" ("```json" ++ t)) 1 = inr (before "```json" t).
Proof.
  unfold Py.getitem, Py.split. simpl. rewrite prefix_empty. simpl.
  pose proof (split_aux_first "```json" t EmptyString) as H.
  destruct (Py.split_aux "```json" 0 EmptyString t); simpl in H.
  - discriminate H.
  - injection H as ->. reflexivity.
Qed.

Lemma prefix_cons (a b : ascii) (s1 s2 : string) :
  String.prefix (String a s1) (String b s2) = Ascii.eqb a b && String.prefix s1 s2.
Proof.
  cbn [String.prefix]. destruct (ascii_dec a b) as [->|Hne].
  - rewrite Ascii.eqb_refl. reflexivity.
  - apply Ascii.eqb_neq in Hne. rewrite Hne. reflexivity.
Qed.

Lemma prefix_cons_nil (a : ascii) (s : string) :
  String.prefix (String a s) EmptyString = false.
Proof. reflexivity. Qed.

Ltac prefix_steps :=
  cbn [append] in *;
  repeat (rewrite prefix_cons in * || rewrite prefix_cons_nil in *
          || rewrite prefix_empty in * || rewrite Ascii.eqb_refl in *).

Ltac split_eqb :=
  repeat match goal with
         | H : context [Ascii.eqb ?a ?b] |- _ =>
             destruct (Ascii.eqb a b); cbn [andb] in *
         | |- context [Ascii.eqb ?a ?b] =>
             destruct (Ascii.eqb a b); cbn [andb] in *
         end.

Lemma prefix_fence_tag (s : string) :
  String.prefix "```json" s = true -> String.prefix "```" s = true.
Proof.
  destruct s as [|c1 [|c2 [|c3 s]]]; prefix_steps; split_eqb;
    intros; try discriminate; reflexivity.
Qed.

Lemma no_fence_prefix_ext (c : ascii) (x u : string) :
  String.prefix "```" (String c x ++ "``") = false ->
  String.prefix "```" (String c x ++ u) = false.
Proof.
  destruct x as [|c2 [|c3 x]]; prefix_steps; split_eqb;
    intros; try discriminate; try reflexivity.
Qed.

Lemma contains_false_before (sep s : string) :
  Py.contains sep s = false -> before sep s = s.
Proof.
  induction s as [|c s IH]; intro H.
  - reflexivity.
  - cbn [Py.contains] in H. apply orb_false_iff in H as [Hp Hc].
    cbn [before]. rewrite Hp, (IH Hc). reflexivity.
Qed.

Lemma before_fence_inner (inner u : string) :
  Py.contains "```" (inner ++ "``") = false ->
  u = EmptyString \/ String.prefix "```" u = true ->
  before "```" (inner ++ u) = inner.
Proof.
  induction inner as [|c i IH]; intros Hc Hu.
  - destruct Hu as [-> | Hu]; [reflexivity|].
    destruct u as [|c u]; [reflexivity|].
    cbn [append before]. rewrite Hu. reflexivity.
  - change (String c i ++ "``")%string with (String c (i ++ "``")) in Hc.
    cbn [Py.contains] in Hc. apply orb_false_iff in Hc as [Hp Hc].
    change (String c i ++ u)%string with (String c (i ++ u)).
    cbn [before].
    change (String c (i ++ u)) with (String c i ++ u)%string.
    rewrite (no_fence_prefix_ext c i u Hp), (IH Hc Hu). reflexivity.
Qed.

Lemma before_tag_inner (inner u : string) :
  Py.contains "```" (inner ++ "``") = false ->
  before "```json" (inner ++ u) = (inner ++ before "```json" u)%string.
Proof.
  induction inner as [|c i IH]; intro Hc.
  - reflexivity.
  - change (String c i ++ "``")%string with (String c (i ++ "``")) in Hc.
    cbn [Py.contains] in Hc. apply orb_false_iff in Hc as [Hp Hc].
    change (String c i ++ u)%string with (String c (i ++ u)).
    cbn [before].
    destruct (String.prefix "```json" (String c (i ++ u))) eqn:Htag.
    + apply prefix_fence_tag in Htag.
      change (String c (i ++ u)) with (String c i ++ u)%string in Htag.
      rewrite (no_fence_prefix_ext c i u Hp) in Htag. discriminate.
    + rewrite (IH Hc). reflexivity.
Qed.

Lemma strip_code_fence_payload (s inner : string) :
  reply_payload s inner -> strip_code_fence s = inr inner.
Proof.
  intros [s' Hplain | inner' rest Hin Hone Htwo]; unfold strip_code_fence.
  - rewrite Hplain. reflexivity.
  - replace (Py.startswith "```json" ("```json" ++ inner' ++ "```" ++ rest)) with true
      by (unfold Py.startswith; simpl; now rewrite prefix_empty).
    rewrite split_after_fence, split_first.
    rewrite (before_tag_inner inner' ("```" ++ rest) Hin).
    f_equal. apply before_fence_inner; [exact Hin|].
    change ("```" ++ rest)%string with (String "`" (String "`" (String "`" rest))).
    change ("``" ++ rest)%string with (String "`" (String "`" rest)) in Hone.
    change ("`" ++ rest)%string with (String "`" rest) in Htwo.
    cbn [before].
    destruct (String.prefix "```json" (String "`" (String "`" (String "`" rest)))).
    + left. reflexivity.
    + right. rewrite Hone, Htwo. prefix_steps. reflexivity.
Qed.

(* ----------------------------------------------------------------- *)
(** *** The extractor *)

Ltac run_monad :=
  unfold bind, lift, ret, raise, try_except, create in *.

Lemma extract_decoded (text_chunk : string) (w : World)
    (response : ChatCompletion) (content json_str : string) (v : json) :
  chat_completions_create (extraction_request text_chunk) = inr response ->
  message_content response = inr (Some content) ->
  strip_code_fence (Py.strip content) = inr json_str ->
  json_loads json_str = Some v ->
  extract_entities_from_chunk text_chunk w
  = Returns (parsed_result (top_level v))
            (record_request (extraction_request text_chunk) w).
Proof.
  intros Hc Hm Hf Hj. unfold extract_entities_from_chunk. run_monad.
  rewrite Hc, Hm. cbn [strip_method]. rewrite Hf. unfold loads. rewrite Hj.
  destruct v as [| | | | |items|members]; try reflexivity.
  unfold parsed_result, field_or, Py.get, top_level.
  destruct (Py.lookup "entities" members),
           (Py.lookup "relationships" members),
           (Py.lookup "chunk_summary" members); reflexivity.
Qed.

Lemma extract_returns (text_chunk : string) (w : World) :
  extract_entities_from_chunk text_chunk w
  = Returns (extraction_of text_chunk)
            (record_request (extraction_request text_chunk) w).
Proof.
  unfold extraction_of, extract_entities_from_chunk. run_monad.
  destruct (chat_completions_create (extraction_request text_chunk)) as [e|r];
    [reflexivity|].
  destruct (message_content r) as [e|c]; [reflexivity|].
  destruct (strip_method c) as [e|s]; [reflexivity|].
  destruct (strip_code_fence s) as [e|s']; [reflexivity|].
  destruct (loads s') as [e|d]; [reflexivity|].
  destruct (Py.get d "entities" (JArr [])) as [e|a]; [reflexivity|].
  destruct (Py.get d "relationships" (JArr [])) as [e|b]; [reflexivity|].
  destruct (Py.get d "chunk_summary" (JStr "")) as [e|c']; reflexivity.
Qed.

(** C2. When the completion call raises, or the reply's text does not
    decode as JSON, the extractor returns the result with an empty entity
    list, an empty relationship list and an empty summary, and raises
    nothing. *)
Theorem extraction_failure_yields_fallback (text_chunk : string) (w : World) :
  (exists e, chat_completions_create (extraction_request text_chunk) = inl e)
  \/ (exists response content json_str,
        chat_completions_create (extraction_request text_chunk) = inr response
        /\ message_content response = inr (Some content)
        /\ strip_code_fence (Py.strip content) = inr json_str
        /\ json_loads json_str = None) ->
  extract_entities_from_chunk text_chunk w
  = Returns {| entities := JArr []; relationships := JArr [];
               chunk_summary := JStr "" |}
            (record_request (extraction_request text_chunk) w).
Proof.
  intros [[e He] | (response & content & json_str & Hc & Hm & Hf & Hj)];
    unfold extract_entities_from_chunk; run_monad.
  - rewrite He. reflexivity.
  - rewrite Hc, Hm. cbn [strip_method]. rewrite Hf. unfold loads. rewrite Hj.
    reflexivity.
Qed.

(** C10. When the reply decodes as JSON, each of the three fields of the
    result is the value the reply has under that top-level key, and a
    field whose key the reply omits is the empty list (the empty string
    for the summary); the run returns and raises nothing. *)
Theorem missing_fields_take_defaults (text_chunk : string) (w : World)
    (response : ChatCompletion) (content json_str : string) (v : json) :
  chat_completions_create (extraction_request text_chunk) = inr response ->
  message_content response = inr (Some content) ->
  strip_code_fence (Py.strip content) = inr json_str ->
  json_loads json_str = Some v ->
  exists r,
    extract_entities_from_chunk text_chunk w
    = Returns r (record_request (extraction_request text_chunk) w)
    /\ (Py.lookup "entities" (top_level v) = None -> entities r = JArr [])
    /\ (Py.lookup "relationships" (top_level v) = None -> relationships r = JArr [])
    /\ (Py.lookup "chunk_summary" (top_level v) = None -> chunk_summary r = JStr "")
    /\ (forall x, Py.lookup "entities" (top_level v) = Some x -> entities r = x)
    /\ (forall x, Py.lookup "relationships" (top_level v) = Some x ->
                  relationships r = x)
    /\ (forall x, Py.lookup "chunk_summary" (top_level v) = Some x ->
                  chunk_summary r = x).
Proof.
  intros Hc Hm Hf Hj. exists (parsed_result (top_level v)).
  split; [now apply extract_decoded with response content json_str|].
  unfold parsed_result, field_or; cbn [entities relationships chunk_summary].
  repeat split; intros; rewrite H; reflexivity.
Qed.

(** C6, as the code has it.  The text handed to the decoder is the
    payload of the stripped reply: the content between the tagged opening
    fence and the first triple backtick after it, whatever follows the
    closing fence; or the whole stripped reply, a bare fence included,
    when it does not open with the tagged fence.  When the payload
    decodes, the reply yields the decoded entities, relationships and
    summary; when the decoder rejects it, the empty result. *)
Theorem tagged_fence_is_stripped (text_chunk : string) (w : World)
    (response : ChatCompletion) (content inner : string) :
  chat_completions_create (extraction_request text_chunk) = inr response ->
  message_content response = inr (Some content) ->
  reply_payload (Py.strip content) inner ->
  (forall v, json_loads inner = Some v ->
     extract_entities_from_chunk text_chunk w
     = Returns {| entities := field_or (JArr []) "entities" (top_level v);
                  relationships := field_or (JArr []) "relationships" (top_level v);
                  chunk_summary := field_or (JStr "") "chunk_summary" (top_level v) |}
               (record_request (extraction_request text_chunk) w))
  /\ (json_loads inner = None ->
      extract_entities_from_chunk text_chunk w
      = Returns {| entities := JArr []; relationships := JArr [];
                   chunk_summary := JStr "" |}
                (record_request (extraction_request text_chunk) w)).
Proof.
  intros Hc Hm Hp. apply strip_code_fence_payload in Hp. split.
  - intros v Hj. now apply extract_decoded with response content inner.
  - intro Hj. unfold extract_entities_from_chunk. run_monad.
    rewrite Hc, Hm. cbn [strip_method]. rewrite Hp. unfold loads. rewrite Hj.
    reflexivity.
Qed.

(** C4. When the completion call of the answer synthesis raises, the
    query raises that same exception to its caller: no answer is
    returned in its place. *)
Theorem synthesis_failure_propagates (question : string) (w : World)
    (fragments : list string) (e : exn) :
  retrieve question (graph w) = inr fragments ->
  chat_completions_create (cot_request question (context_of fragments)) = inl e ->
  query_with_chain_of_thought question w
  = Raises e (record_request (cot_request question (context_of fragments)) w).
Proof.
  intros Hr He. unfold query_with_chain_of_thought, query_engine_retrieve.
  run_monad. rewrite Hr, He. reflexivity.
Qed.

(* ----------------------------------------------------------------- *)
(** *** The ingestion loop *)

Lemma with_graph_same (w : World) : with_graph (graph w) w = w.
Proof. destruct w; reflexivity. Qed.

Lemma keeps_sent_ret (A : Type) (a : A) : keeps_sent (ret a).
Proof. intro w; reflexivity. Qed.

Lemma keeps_sent_lift (A : Type) (r : exn + A) : keeps_sent (lift r).
Proof. intro w; destruct r; reflexivity. Qed.

Lemma keeps_sent_bind (A B : Type) (m : M A) (k : A -> M B) :
  keeps_sent m -> (forall a, keeps_sent (k a)) -> keeps_sent (bind m k).
Proof.
  intros Hm Hk w. unfold bind. specialize (Hm w).
  destruct (m w) as [a w'|e w']; cbn [final_world] in *.
  - rewrite (Hk a w'). exact Hm.
  - exact Hm.
Qed.

Lemma keeps_sent_session_run (query : Query) : keeps_sent (session_run query).
Proof.
  intro w. unfold session_run.
  destruct (cypher query (graph w)) as [[e|g]|]; try reflexivity.
  destruct (store_other query (graph w)); reflexivity.
Qed.

Lemma keeps_sent_for_each (A : Type) (xs : list A) (body : A -> M unit) :
  (forall x, keeps_sent (body x)) -> keeps_sent (for_each xs body).
Proof.
  intro Hb. induction xs as [|x xs IH]; cbn [for_each].
  - apply keeps_sent_ret.
  - apply keeps_sent_bind; [apply Hb | intros _; exact IH].
Qed.

Create HintDb sent.
#[local] Hint Resolve keeps_sent_ret keeps_sent_lift keeps_sent_session_run : sent.

Lemma keeps_sent_ingest_entity (chunk_id : string) (entity : json) :
  keeps_sent (ingest_entity chunk_id entity).
Proof.
  unfold ingest_entity.
  repeat (apply keeps_sent_bind; [auto with sent | intro]).
  auto with sent.
Qed.

Lemma keeps_sent_ingest_relationship (rel : json) :
  keeps_sent (ingest_relationship rel).
Proof.
  unfold ingest_relationship.
  repeat (apply keeps_sent_bind; [auto with sent | intro]).
  auto with sent.
Qed.

Lemma ingest_chunk_sent (i : nat) (doc : Document) (w : World) :
  sent (final_world (ingest_chunk i doc w))
  = sent w ++ [extraction_request (text doc)].
Proof.
  unfold ingest_chunk, bind at 1. rewrite extract_returns.
  set (w1 := record_request _ w).
  change (sent w ++ [extraction_request (text doc)]) with (sent w1).
  destruct (negb (Py.truthy (entities (extraction_of (text doc))))).
  - reflexivity.
  - revert w1. apply keeps_sent_bind; [auto with sent | intros _].
    apply keeps_sent_bind; [auto with sent | intro ents].
    apply keeps_sent_bind;
      [apply keeps_sent_for_each, keeps_sent_ingest_entity | intros _].
    apply keeps_sent_bind; [auto with sent | intro rels].
    apply keeps_sent_for_each, keeps_sent_ingest_relationship.
Qed.

Lemma for_enumerate_app (A : Type) (body : nat -> A -> M unit)
    (pre rest : list A) (i : nat) (w : World) :
  for_enumerate i (pre ++ rest) body w
  = match for_enumerate i pre body w with
    | Returns _ w1 => for_enumerate (i + length pre) rest body w1
    | Raises e w1 => Raises e w1
    end.
Proof.
  revert i w. induction pre as [|x pre IH]; intros i w.
  - cbn. rewrite Nat.add_0_r. reflexivity.
  - cbn [app for_enumerate length]. unfold bind.
    destruct (body i x w) as [[] w1|e w1]; [|reflexivity].
    rewrite IH. replace (S i + length pre) with (i + S (length pre)) by lia.
    reflexivity.
Qed.

Lemma for_enumerate_sent_returns (ds : list Document) (i : nat) (w w1 : World) :
  for_enumerate i ds ingest_chunk w = Returns tt w1 ->
  sent w1 = sent w ++ requests_of ds.
Proof.
  revert i w. induction ds as [|d ds IH]; intros i w H.
  - cbn in H. injection H as <-. cbn. now rewrite app_nil_r.
  - cbn [for_enumerate] in H. unfold bind in H.
    pose proof (ingest_chunk_sent i d w) as Hs.
    destruct (ingest_chunk i d w) as [[] w'|e w']; [|discriminate H].
    cbn [final_world] in Hs. rewrite (IH _ _ H), Hs.
    cbn. rewrite <- app_assoc. reflexivity.
Qed.

Lemma for_enumerate_sent (ds : list Document) (i : nat) (w : World) :
  exists k, k <= length ds
    /\ sent (final_world (for_enumerate i ds ingest_chunk w))
       = sent w ++ requests_of (firstn k ds).
Proof.
  revert i w. induction ds as [|d ds IH]; intros i w.
  - exists 0. split; [lia|]. cbn. now rewrite app_nil_r.
  - cbn [for_enumerate]. unfold bind.
    pose proof (ingest_chunk_sent i d w) as Hs.
    destruct (ingest_chunk i d w) as [[] w'|e w']; cbn [final_world] in Hs.
    + destruct (IH (S i) w') as (k & Hk & Hsent).
      exists (S k). split; [cbn; lia|].
      rewrite Hsent, Hs. cbn. rewrite <- app_assoc. reflexivity.
    + exists 1. split; [cbn; lia|]. cbn [final_world]. rewrite Hs.
      destruct ds; reflexivity.
Qed.

(** C7. A run processes the first twenty chunks only: it is the run on
    the first twenty chunks, and the requests it sends are those of an
    initial segment of at most twenty chunks, so a chunk past the cap is
    neither extracted nor written. *)
Theorem chunks_past_cap_untouched (documents : list Document) (w : World) :
  ingest_documents_semantically documents w
  = ingest_documents_semantically (firstn 20 documents) w
  /\ exists k, k <= 20
       /\ sent (final_world (ingest_documents_semantically documents w))
          = sent w ++ requests_of (firstn k documents).
Proof.
  unfold ingest_documents_semantically. split.
  - rewrite firstn_firstn. reflexivity.
  - destruct (for_enumerate_sent (firstn 20 documents) 0 w) as (k & Hk & Hs).
    pose proof (firstn_le_length 20 documents) as Hlen.
    assert (Hk20 : k <= 20).
    { rewrite length_firstn in Hk. lia. }
    exists k. split; [exact Hk20|].
    rewrite Hs, firstn_firstn. replace (Init.Nat.min k 20) with k by lia.
    reflexivity.
Qed.

(** C8. A chunk whose extraction has an empty entity list is passed over:
    its turn returns without an exception, the graph is as it was, and
    the loop goes on with the next chunk. *)
Theorem empty_entities_chunk_skipped (i : nat) (doc : Document)
    (rest : list Document) (w w1 : World) (r : EntityExtractionResult) :
  extract_entities_from_chunk (text doc) w = Returns r w1 ->
  entities r = JArr [] ->
  ingest_chunk i doc w = Returns tt w1
  /\ graph w1 = graph w
  /\ for_enumerate i (doc :: rest) ingest_chunk w
     = for_enumerate (S i) rest ingest_chunk w1.
Proof.
  intros Hx Hr.
  assert (Hc : ingest_chunk i doc w = Returns tt w1).
  { unfold ingest_chunk, bind. rewrite Hx, Hr. reflexivity. }
  repeat split.
  - exact Hc.
  - rewrite extract_returns in Hx. injection Hx as _ <-. reflexivity.
  - cbn [for_enumerate]. unfold bind. rewrite Hc. reflexivity.
Qed.

Lemma raising_chunk_aborts_run (documents pre post : list Document)
    (doc : Document) (w w1 w2 : World) (e : exn) :
  firstn 20 documents = pre ++ doc :: post ->
  for_enumerate 0 pre ingest_chunk w = Returns tt w1 ->
  ingest_chunk (length pre) doc w1 = Raises e w2 ->
  ingest_documents_semantically documents w = Raises e w2
  /\ sent w2 = sent w ++ requests_of (pre ++ [doc]).
Proof.
  intros Hd Hpre Hdoc. split.
  - unfold ingest_documents_semantically.
    rewrite Hd, for_enumerate_app, Hpre.
    cbn [for_enumerate Nat.add]. unfold bind. rewrite Hdoc. reflexivity.
  - pose proof (ingest_chunk_sent (length pre) doc w1) as Hs.
    rewrite Hdoc in Hs. cbn [final_world] in Hs.
    rewrite Hs, (for_enumerate_sent_returns _ _ _ Hpre).
    unfold requests_of. rewrite map_app, app_assoc. reflexivity.
Qed.

Lemma session_run_outcome (query : Query) (w : World) :
  session_run query w
  = match store_outcome query (graph w) with
    | inr g => Returns tt (with_graph g w)
    | inl e => Raises e w
    end.
Proof. reflexivity. Qed.

Lemma for_each_app (A : Type) (body : A -> M unit) (done rest : list A)
    (w : World) :
  for_each (done ++ rest) body w
  = match for_each done body w with
    | Returns _ w1 => for_each rest body w1
    | Raises e w1 => Raises e w1
    end.
Proof.
  revert w. induction done as [|x done IH]; intro w.
  - reflexivity.
  - cbn [app for_each]. unfold bind.
    destruct (body x w) as [[] w1|e w1]; [apply IH | reflexivity].
Qed.

Lemma entity_write_fails_raises (chunk_id : string) (entity : json)
    (w w2 : World) (e : exn) :
  entity_write_fails chunk_id entity w e w2 ->
  ingest_entity chunk_id entity w = Raises e w2.
Proof.
  intros [t n d Ht Hn Hd Hm | t n d label g1 Ht Hn Hd Hm Hl Hk];
    unfold ingest_entity; run_monad; rewrite Ht, Hn, Hd; cbn beta iota;
    rewrite session_run_outcome, Hm.
  - reflexivity.
  - rewrite Hl. cbn beta iota. rewrite session_run_outcome.
    cbn [graph with_graph]. rewrite Hk. reflexivity.
Qed.

Lemma relationship_write_fails_raises (rel : json) (w w2 : World) (e : exn) :
  relationship_write_fails rel w e w2 ->
  ingest_relationship rel w = Raises e w2.
Proof.
  intros [t a b Ht Ha Hb Hm].
  unfold ingest_relationship. run_monad.
  rewrite Ht, Ha, Hb. cbn beta iota. rewrite session_run_outcome, Hm.
  reflexivity.
Qed.

Lemma chunk_write_fails_raises (i : nat) (doc : Document)
    (r : EntityExtractionResult) (w w1 w2 : World) (e : exn) :
  extract_entities_from_chunk (text doc) w = Returns r w1 ->
  Py.truthy (entities r) = true ->
  chunk_write_fails i r w1 e w2 ->
  ingest_chunk i doc w = Raises e w2.
Proof.
  intros Hx Ht Hf. unfold ingest_chunk. unfold bind at 1. rewrite Hx, Ht.
  cbn [negb]. cbn beta iota.
  destruct Hf as [Hd | g1 done rest entity wa wb Hd Hi Hdone He
                 | g1 ents done rest rel wa wb wc Hd Hi Hents Hr Hdone Hrel];
    run_monad; rewrite session_run_outcome, Hd; [reflexivity | |].
  - rewrite Hi. cbn beta iota. rewrite for_each_app, Hdone. cbn [for_each].
    run_monad. rewrite (entity_write_fails_raises He). reflexivity.
  - rewrite Hi. cbn beta iota. rewrite Hents, Hr. cbn beta iota.
    rewrite for_each_app, Hdone. cbn [for_each]. run_monad.
    rewrite (relationship_write_fails_raises Hrel). reflexivity.
Qed.

(** C3, as the code has it.  When the store refuses a write of one chunk,
    the run ends at once with the store's exception: the caller gets that
    exception, the world is the one in which the refused statement was
    sent, and the chunks after it are not extracted.  Nothing is
    accumulated: the exception is all the caller gets. *)
Theorem refused_write_aborts_run (documents pre post : list Document)
    (doc : Document) (r : EntityExtractionResult) (w w1 w2 w3 : World)
    (e : exn) :
  firstn 20 documents = pre ++ doc :: post ->
  for_enumerate 0 pre ingest_chunk w = Returns tt w1 ->
  extract_entities_from_chunk (text doc) w1 = Returns r w2 ->
  Py.truthy (entities r) = true ->
  chunk_write_fails (length pre) r w2 e w3 ->
  ingest_documents_semantically documents w = Raises e w3
  /\ sent w3 = sent w ++ requests_of (pre ++ [doc]).
Proof.
  intros Hd Hpre Hx Ht Hf.
  apply raising_chunk_aborts_run with post w1; [exact Hd | exact Hpre |].
  now apply chunk_write_fails_raises with r w2.
Qed.

(* ----------------------------------------------------------------- *)
(** *** Relationships *)

Lemma edge_eqb_eq (e1 e2 : Edge) : edge_eqb e1 e2 = true <-> e1 = e2.
Proof.
  destruct e1 as [s1 t1 d1], e2 as [s2 t2 d2]. unfold edge_eqb. cbn.
  rewrite !andb_true_iff, !Nat.eqb_eq, String.eqb_eq.
  split.
  - intros [[-> ->] ->]. reflexivity.
  - intro H. injection H as -> -> ->. auto.
Qed.

Lemma existsb_edge_in (e : Edge) (es : list Edge) :
  existsb (edge_eqb e) es = true <-> In e es.
Proof.
  rewrite existsb_exists. split.
  - intros (x & Hin & Heq). apply edge_eqb_eq in Heq. now subst.
  - intro Hin. exists e. split; [exact Hin | now apply edge_eqb_eq].
Qed.

Lemma merge_edge_in (es : list Edge) (e x : Edge) :
  In x (merge_edge es e) <-> In x es \/ x = e.
Proof.
  unfold merge_edge. destruct (existsb (edge_eqb e) es) eqn:Hex.
  - apply existsb_edge_in in Hex. split; [auto|].
    intros [H | ->]; assumption.
  - rewrite in_app_iff. cbn. split.
    + intros [H | [<- | []]]; auto.
    + intros [H | ->]; auto.
Qed.

Lemma fold_merge_edge_in (new es : list Edge) (x : Edge) :
  In x (fold_left merge_edge new es) <-> In x es \/ In x new.
Proof.
  revert es. induction new as [|e new IH]; intro es; cbn [fold_left].
  - cbn. split; [auto | intros [H | []]; exact H].
  - rewrite IH, merge_edge_in. cbn. split.
    + intros [[H | ->] | H]; auto.
    + intros [H | [<- | H]]; auto.
Qed.

Lemma has_prop_iff (k v : string) (n : Node) :
  has_prop k v n = true <-> prop k n = Some (JStr v).
Proof.
  unfold has_prop. destruct (prop k n) as [[| | | |s| |]|];
    try (split; discriminate).
  rewrite String.eqb_eq. split; [now intros -> | now intros [= ->]].
Qed.

Lemma merge_edges_in (t : string) (froms tos : list Node) (g : Graph) (x : Edge) :
  In x (edges (merge_edges t froms tos g))
  <-> In x (edges g)
      \/ exists a b, In a froms /\ In b tos /\ x = edge_between t a b.
Proof.
  unfold merge_edges. cbn [edges]. rewrite fold_merge_edge_in, in_map_iff.
  split; (intros [H|H]; [left; exact H | right]).
  - destruct H as ([a b] & <- & Hin). apply in_prod_iff in Hin.
    destruct Hin as [Ha Hb]. exists a, b. repeat split; assumption.
  - destruct H as (a & b & Ha & Hb & ->). exists (a, b).
    split; [reflexivity | now apply in_prod_iff].
Qed.

Lemma ingest_relationship_run (rel : json) (t from_name to_name : string)
    (w : World) :
  Py.subscript rel "type" = inr (JStr t) ->
  Py.subscript rel "from" = inr (JStr from_name) ->
  Py.subscript rel "to" = inr (JStr to_name) ->
  is_identifier t = true ->
  ingest_relationship rel w
  = Returns tt (with_graph
                  (merge_relationship t (Some from_name) (Some to_name) (graph w))
                  w).
Proof.
  intros Ht Hf Hto Hid. unfold ingest_relationship. run_monad.
  rewrite Ht, Hf, Hto. unfold session_run. cbn [cypher param]. rewrite Hid.
  reflexivity.
Qed.


Lemma filter_name_none (s : string) (ns : list Node) :
  (forall n, In n ns -> prop "name" n <> Some (JStr s)) ->
  filter (has_prop "name" s) ns = [].
Proof.
  intro Hs. induction ns as [|n ns IH]; [reflexivity|]. cbn [filter].
  destruct (has_prop "name" s n) eqn:Hp.
  - apply has_prop_iff in Hp. exfalso. apply (Hs n); [now left | exact Hp].
  - apply IH. intros m Hm. apply Hs. now right.
Qed.

Lemma list_prod_nil_r (A B : Type) (l : list A) : list_prod l (@nil B) = [].
Proof. induction l; [reflexivity | assumption]. Qed.

Lemma merge_relationship_unmatched (t from_name to_name : string) (g : Graph) :
  filter (has_prop "name" from_name) (nodes g) = []
  \/ filter (has_prop "name" to_name) (nodes g) = [] ->
  merge_relationship t (Some from_name) (Some to_name) g = g.
Proof.
  intro H. unfold merge_relationship, merge_edges.
  change (has_param "name" (Some from_name)) with (has_prop "name" from_name).
  change (has_param "name" (Some to_name)) with (has_prop "name" to_name).
  destruct H as [-> | ->]; [|rewrite list_prod_nil_r];
    destruct g; reflexivity.
Qed.

(** C9, as the code has it.  A relationship whose type is a symbolic
    name and whose [from] and [to] are strings, and whose [from] name or
    [to] name is the name of no node, leaves the world as it is and
    raises nothing; in general the edges afterwards are the edges before
    together with one edge for every pair of a node named [from] and a
    node named [to]. *)
Theorem unmatched_relationship_dropped (rel : json)
    (t from_name to_name : string) (w : World) :
  Py.subscript rel "type" = inr (JStr t) ->
  Py.subscript rel "from" = inr (JStr from_name) ->
  Py.subscript rel "to" = inr (JStr to_name) ->
  is_identifier t = true ->
  ((forall n, In n (nodes (graph w)) -> prop "name" n <> Some (JStr from_name))
   \/ (forall n, In n (nodes (graph w)) -> prop "name" n <> Some (JStr to_name)) ->
   ingest_relationship rel w = Returns tt w)
  /\ exists g',
      ingest_relationship rel w = Returns tt (with_graph g' w)
      /\ forall e,
          In e (edges g')
          <-> In e (edges (graph w))
              \/ exists a b,
                  In a (nodes (graph w)) /\ In b (nodes (graph w))
                  /\ prop "name" a = Some (JStr from_name)
                  /\ prop "name" b = Some (JStr to_name)
                  /\ e = {| src := node_id a; rel_type := t; dst := node_id b |}.
Proof.
  intros Ht Hf Hto Hid.
  pose proof (ingest_relationship_run rel w Ht Hf Hto Hid) as Hrun.
  split.
  - intro Hnone. rewrite Hrun.
    rewrite merge_relationship_unmatched; [now rewrite with_graph_same|].
    destruct Hnone as [Hn | Hn]; [left | right]; now apply filter_name_none.
  - eexists. split; [exact Hrun|]. intro e. unfold merge_relationship.
    rewrite merge_edges_in. cbn [has_param].
    split; (intros [H|H]; [left; exact H | right]).
    + destruct H as (a & b & Ha & Hb & ->).
      apply filter_In in Ha as [Ha Hpa]. apply filter_In in Hb as [Hb Hpb].
      apply has_prop_iff in Hpa, Hpb. exists a, b. auto.
    + destruct H as (a & b & Ha & Hb & Hpa & Hpb & ->). exists a, b.
      repeat split; try (apply filter_In; split; [assumption|now apply has_prop_iff]).
Qed.

(* ----------------------------------------------------------------- *)
(** *** The statements and the entity nodes *)

Lemma lookup_replace_other (k k' : string) (v : json) (ps : list (string * json)) :
  String.eqb k k' = false ->
  Py.lookup k (replace_prop k' v ps) = Py.lookup k ps.
Proof.
  intro Hne. induction ps as [|[k0 v0] ps IH]; cbn [replace_prop Py.lookup].
  - rewrite Hne. reflexivity.
  - destruct (String.eqb k' k0) eqn:Hk; cbn [Py.lookup].
    + apply String.eqb_eq in Hk. subst k0. rewrite Hne. reflexivity.
    + rewrite IH. reflexivity.
Qed.

Lemma lookup_remove_other (k k' : string) (ps : list (string * json)) :
  String.eqb k k' = false ->
  Py.lookup k (remove_prop k' ps) = Py.lookup k ps.
Proof.
  intro Hne. induction ps as [|[k0 v0] ps IH]; cbn [remove_prop Py.lookup].
  - reflexivity.
  - destruct (String.eqb k' k0) eqn:Hk; cbn [Py.lookup].
    + apply String.eqb_eq in Hk. subst k0. rewrite Hne. exact IH.
    + rewrite IH. reflexivity.
Qed.

Lemma entity_match_set_description (l n : string) (d : option string) (x : Node) :
  entity_match l n (set_prop "description" d x) = entity_match l n x.
Proof.
  unfold entity_match, has_label, has_prop, prop, set_prop. cbn [labels props].
  destruct d as [s|];
    [rewrite lookup_replace_other | rewrite lookup_remove_other];
    reflexivity.
Qed.

Lemma filter_map_same (A : Type) (p : A -> bool) (f : A -> A) (xs : list A) :
  (forall x, p (f x) = p x) ->
  length (filter p (map f xs)) = length (filter p xs).
Proof.
  intro Hp. induction xs as [|x xs IH]; [reflexivity|].
  cbn [map filter]. rewrite Hp. destruct (p x); cbn [length]; now rewrite IH.
Qed.

Lemma filter_length_app (A : Type) (p : A -> bool) (xs ys : list A) :
  length (filter p (xs ++ ys)) = length (filter p xs) + length (filter p ys).
Proof. rewrite filter_app, length_app. reflexivity. Qed.

Lemma existsb_false_count (A : Type) (p : A -> bool) (xs : list A) :
  existsb p xs = false -> length (filter p xs) = 0.
Proof.
  induction xs as [|x xs IH]; [reflexivity|]. cbn [existsb filter].
  intro H. apply orb_false_iff in H as [-> Hx]. now apply IH.
Qed.

Lemma existsb_true_count (A : Type) (p : A -> bool) (xs : list A) :
  existsb p xs = true <-> 1 <= length (filter p xs).
Proof.
  induction xs as [|x xs IH]; cbn [existsb filter].
  - cbn. split; [discriminate | lia].
  - destruct (p x); cbn [orb length]; [split; [lia|reflexivity] | exact IH].
Qed.

Lemma count_create_document (c : string) (s : option string) (g : Graph)
    (l n : string) :
  count_entity l n (create_document c s g) = count_entity l n g.
Proof.
  unfold count_entity, create_document, add_node. cbn [nodes].
  rewrite filter_length_app. cbn [filter].
  match goal with
  | |- context [entity_match l n ?x] =>
      replace (entity_match l n x) with false
        by (unfold entity_match, has_prop, prop; destruct s; cbn;
            now rewrite andb_false_r)
  end.
  cbn. lia.
Qed.

Lemma count_merge_edges (t : string) (froms tos : list Node) (g : Graph)
    (l n : string) :
  count_entity l n (merge_edges t froms tos g) = count_entity l n g.
Proof. reflexivity. Qed.

(** The nodes of [merge_entity], by whether the entity is there already. *)
Lemma merge_entity_nodes (l n : string) (d : option string) (g : Graph) :
  nodes (merge_entity l n d g)
  = map (fun x => if entity_match l n x then set_prop "description" d x else x)
        (if existsb (entity_match l n) (nodes g) then nodes g
         else nodes g ++ [{| node_id := fresh_id g; labels := [l];
                             props := [("name", JStr n)] |}]).
Proof.
  unfold merge_entity. destruct (existsb (entity_match l n) (nodes g)); reflexivity.
Qed.

Lemma count_merge_entity (l n : string) (d : option string) (g : Graph)
    (l' n' : string) :
  count_entity l' n' (merge_entity l n d g)
  = count_entity l' n' g
    + (if existsb (entity_match l n) (nodes g) then 0
       else if String.eqb l' l && String.eqb n n' then 1 else 0).
Proof.
  unfold count_entity. rewrite merge_entity_nodes, filter_map_same.
  - destruct (existsb (entity_match l n) (nodes g)); [lia|].
    rewrite filter_length_app. f_equal.
    unfold entity_match, has_label, has_prop, prop. cbn.
    rewrite orb_false_r. destruct (String.eqb l' l && String.eqb n n'); reflexivity.
  - intro x. destruct (entity_match l n x); [|reflexivity].
    apply entity_match_set_description.
Qed.

Lemma length_merge_entity (l n : string) (d : option string) (g : Graph) :
  length (nodes (merge_entity l n d g))
  = length (nodes g) + (if existsb (entity_match l n) (nodes g) then 0 else 1).
Proof.
  rewrite merge_entity_nodes, length_map.
  destruct (existsb (entity_match l n) (nodes g)); [lia|].
  rewrite length_app. reflexivity.
Qed.

Lemma merge_entity_present (l n : string) (d : option string) (g : Graph) :
  1 <= count_entity l n (merge_entity l n d g).
Proof.
  rewrite count_merge_entity.
  destruct (existsb (entity_match l n) (nodes g)) eqn:Hex.
  - apply existsb_true_count in Hex. unfold count_entity. lia.
  - rewrite !String.eqb_refl. cbn. lia.
Qed.

Lemma merge_edge_nodup (es : list Edge) (e : Edge) :
  NoDup es -> NoDup (merge_edge es e).
Proof.
  intro H. unfold merge_edge. destruct (existsb (edge_eqb e) es) eqn:Hex.
  - exact H.
  - apply NoDup_app; [exact H | repeat constructor; intros [] |].
    intros x Hx [<-|[]].
    apply existsb_edge_in in Hx. congruence.
Qed.

Lemma fold_merge_edge_nodup (new es : list Edge) :
  NoDup es -> NoDup (fold_left merge_edge new es).
Proof.
  revert es. induction new as [|e new IH]; intros es H; cbn [fold_left].
  - exact H.
  - apply IH, merge_edge_nodup, H.
Qed.

(* ----------------------------------------------------------------- *)
(** *** What a run keeps *)

Lemma grows_refl (g : Graph) : grows g g.
Proof. unfold grows. auto. Qed.

Lemma grows_trans (g1 g2 g3 : Graph) : grows g1 g2 -> grows g2 g3 -> grows g1 g3.
Proof.
  intros (Hc1 & Hu1 & Hn1) (Hc2 & Hu2 & Hn2). repeat split; auto.
  intros l n. specialize (Hc1 l n). specialize (Hc2 l n). lia.
Qed.

Lemma grows_create_document (c : string) (s : option string) (g : Graph) :
  grows g (create_document c s g).
Proof.
  repeat split.
  - intros l n. rewrite count_create_document. lia.
  - intros Hu l n. rewrite count_create_document. apply Hu.
  - auto.
Qed.

Lemma grows_merge_entity (l n : string) (d : option string) (g : Graph) :
  grows g (merge_entity l n d g).
Proof.
  repeat split.
  - intros l' n'. rewrite count_merge_entity. lia.
  - intros Hu l' n'. rewrite count_merge_entity. specialize (Hu l' n').
    destruct (existsb (entity_match l n) (nodes g)) eqn:Hex; [lia|].
    destruct (String.eqb l' l && String.eqb n n') eqn:Heq; [|lia].
    apply andb_true_iff in Heq as [Hl Hn].
    apply String.eqb_eq in Hl, Hn. subst l' n'.
    apply existsb_false_count in Hex. unfold count_entity. lia.
  - unfold merge_entity.
    destruct (existsb (entity_match l n) (nodes g)); cbn [edges]; auto.
Qed.

Lemma grows_merge_edges (t : string) (froms tos : list Node) (g : Graph) :
  grows g (merge_edges t froms tos g).
Proof.
  repeat split; auto.
  intro H. unfold merge_edges. cbn [edges]. now apply fold_merge_edge_nodup.
Qed.

Lemma grows_entity_step (cid : string) (g : Graph)
    (e : string * string * option string) :
  grows g (entity_step cid g e).
Proof.
  destruct e as [[l n] d]. unfold entity_step, link_document.
  eapply grows_trans; [apply grows_merge_entity | apply grows_merge_edges].
Qed.

Lemma grows_relationship_step (g : Graph)
    (r : string * option string * option string) :
  grows g (relationship_step g r).
Proof.
  destruct r as [[t a] b]. unfold relationship_step, merge_relationship.
  apply grows_merge_edges.
Qed.

Lemma grows_fold (A : Type) (step : Graph -> A -> Graph) (xs : list A) (g : Graph) :
  (forall g x, grows g (step g x)) -> grows g (fold_left step xs g).
Proof.
  intro Hs. revert g. induction xs as [|x xs IH]; intro g; cbn [fold_left].
  - apply grows_refl.
  - eapply grows_trans; [apply Hs | apply IH].
Qed.

Lemma grows_chunk_graph (i : nat) (c : ChunkFields) (g : Graph) :
  grows g (chunk_graph i c g).
Proof.
  unfold chunk_graph. destruct (entity_list c) as [|e es] eqn:He.
  - apply grows_refl.
  - eapply grows_trans; [apply grows_create_document|].
    eapply grows_trans; apply grows_fold;
      [apply grows_entity_step | apply grows_relationship_step].
Qed.

Lemma grows_run_graph (cs : list ChunkFields) (i : nat) (g : Graph) :
  grows g (run_graph i cs g).
Proof.
  revert i g. induction cs as [|c cs IH]; intros i g; cbn [run_graph].
  - apply grows_refl.
  - eapply grows_trans; [apply grows_chunk_graph | apply IH].
Qed.

Lemma fold_entities_present (cid : string)
    (es : list (string * string * option string)) (g : Graph)
    (l n : string) (d : option string) :
  In (l, n, d) es ->
  1 <= count_entity l n (fold_left (entity_step cid) es g).
Proof.
  revert g. induction es as [|e es IH]; intros g Hin; [destruct Hin|].
  cbn [fold_left]. destruct Hin as [-> | Hin]; [|now apply IH].
  pose proof (grows_fold (entity_step cid) es
                (entity_step cid g (l, n, d)) (grows_entity_step cid)) as [Hc _].
  specialize (Hc l n).
  assert (1 <= count_entity l n (entity_step cid g (l, n, d))); [|lia].
  unfold entity_step, link_document. rewrite count_merge_edges.
  apply merge_entity_present.
Qed.

Lemma chunk_graph_present (i : nat) (c : ChunkFields) (g : Graph)
    (l n : string) (d : option string) :
  In (l, n, d) (entity_list c) ->
  1 <= count_entity l n (chunk_graph i c g).
Proof.
  intro Hin. unfold chunk_graph.
  destruct (entity_list c) as [|e es] eqn:He; [destruct Hin|].
  match goal with
  | |- _ <= count_entity l n (fold_left relationship_step ?rs ?g1) =>
      pose proof (grows_fold relationship_step rs g1 grows_relationship_step)
        as [Hc _]
  end.
  specialize (Hc l n).
  pose proof (fold_entities_present (chunk_id_of i) (e :: es)
                (create_document (chunk_id_of i) (summary_field c) g) l n d Hin).
  lia.
Qed.

Lemma run_graph_present (cs : list ChunkFields) (i : nat) (g : Graph)
    (c : ChunkFields) (l n : string) (d : option string) :
  In c cs -> In (l, n, d) (entity_list c) ->
  1 <= count_entity l n (run_graph i cs g).
Proof.
  revert i g. induction cs as [|c0 cs IH]; intros i g Hc Hin; [destruct Hc|].
  cbn [run_graph]. destruct Hc as [-> | Hc]; [|now apply IH].
  pose proof (grows_run_graph cs (S i) (chunk_graph i c g)) as [Hm _].
  specialize (Hm l n).
  pose proof (chunk_graph_present i c g l n d Hin). lia.
Qed.

(* ----------------------------------------------------------------- *)
(** *** A second pass over entities that are there *)

Lemma settled_refl (g : Graph) : settled 0 g g.
Proof. unfold settled. split; [reflexivity | lia]. Qed.

Lemma settled_trans (j k : nat) (g1 g2 g3 : Graph) :
  settled j g1 g2 -> settled k g2 g3 -> settled (j + k) g1 g3.
Proof.
  intros [Hc1 Hl1] [Hc2 Hl2]. split.
  - intros l n. rewrite Hc2. apply Hc1.
  - lia.
Qed.

Lemma settled_create_document (c : string) (s : option string) (g : Graph) :
  settled 1 g (create_document c s g).
Proof.
  split.
  - intros l n. apply count_create_document.
  - unfold create_document, add_node. cbn [nodes]. rewrite length_app. reflexivity.
Qed.

Lemma settled_merge_edges (t : string) (froms tos : list Node) (g : Graph) :
  settled 0 g (merge_edges t froms tos g).
Proof. split; [reflexivity | cbn; lia]. Qed.

Lemma settled_entity_step (cid : string) (g : Graph)
    (l n : string) (d : option string) :
  1 <= count_entity l n g ->
  settled 0 g (entity_step cid g (l, n, d)).
Proof.
  intro Hp. apply existsb_true_count in Hp.
  unfold entity_step, link_document.
  change 0 with (0 + 0). eapply settled_trans; [|apply settled_merge_edges].
  split.
  - intros l' n'. rewrite count_merge_entity, Hp. lia.
  - rewrite length_merge_entity, Hp. reflexivity.
Qed.

Lemma settled_fold_entities (cid : string)
    (es : list (string * string * option string)) (k : nat) (g0 g : Graph) :
  (forall l n d, In (l, n, d) es -> 1 <= count_entity l n g0) ->
  settled k g0 g ->
  settled k g0 (fold_left (entity_step cid) es g).
Proof.
  revert g. induction es as [|[[l n] d] es IH]; intros g Hall Hs; cbn [fold_left].
  - exact Hs.
  - apply IH; [intros l' n' d' H'; apply (Hall l' n' d'); right; exact H'|].
    replace k with (k + 0) by lia. eapply settled_trans; [exact Hs|].
    apply settled_entity_step. destruct Hs as [Hc _]. rewrite Hc.
    apply (Hall l n d). now left.
Qed.

Lemma settled_fold_relationships
    (rs : list (string * option string * option string)) (k : nat) (g0 g : Graph) :
  settled k g0 g ->
  settled k g0 (fold_left relationship_step rs g).
Proof.
  revert g. induction rs as [|[[t a] b] rs IH]; intros g Hs; cbn [fold_left].
  - exact Hs.
  - apply IH. replace k with (k + 0) by lia.
    eapply settled_trans; [exact Hs|].
    unfold relationship_step, merge_relationship. apply settled_merge_edges.
Qed.

Lemma settled_chunk_graph (i : nat) (c : ChunkFields) (g : Graph) :
  (forall l n d, In (l, n, d) (entity_list c) -> 1 <= count_entity l n g) ->
  settled (if has_entities c then 1 else 0) g (chunk_graph i c g).
Proof.
  intro Hall. unfold chunk_graph, has_entities.
  destruct (entity_list c) as [|e es] eqn:He.
  - apply settled_refl.
  - apply settled_fold_relationships, settled_fold_entities; [exact Hall|].
    apply settled_create_document.
Qed.

Lemma settled_run_graph (cs : list ChunkFields) (i : nat) (g : Graph) :
  (forall c l n d, In c cs -> In (l, n, d) (entity_list c) ->
                   1 <= count_entity l n g) ->
  settled (length (filter has_entities cs)) g (run_graph i cs g).
Proof.
  revert i g. induction cs as [|c cs IH]; intros i g Hall; cbn [run_graph filter].
  - apply settled_refl.
  - assert (Hc : settled (if has_entities c then 1 else 0) g (chunk_graph i c g)).
    { apply settled_chunk_graph. intros l n d. apply Hall. now left. }
    assert (Hr : settled (length (filter has_entities cs)) (chunk_graph i c g)
                   (run_graph (S i) cs (chunk_graph i c g))).
    { apply IH. intros c' l n d Hc' Hin. destruct Hc as [Hcount _].
      rewrite Hcount. apply (Hall c' l n d); [now right | exact Hin]. }
    pose proof (settled_trans Hc Hr) as H.
    destruct (has_entities c); exact H.
Qed.

(* ----------------------------------------------------------------- *)
(** *** The run on extraction output of the expected shape *)

Lemma get_field_or (members : list (string * json)) (k : string) (default : json) :
  Py.get (JObj members) k default = inr (field_or default k members).
Proof. unfold Py.get, field_or. destruct (Py.lookup k members); reflexivity. Qed.

Lemma ingest_entity_fields (cid : string) (entity : json)
    (l n : string) (d : option string) (w : World) :
  entity_fields entity = Some (l, n, d) ->
  ingest_entity cid entity w
  = Returns tt (with_graph (entity_step cid (graph w) (l, n, d)) w).
Proof.
  destruct entity as [| | | | | |members]; try discriminate.
  unfold entity_fields.
  destruct (Py.lookup "type" members) as [[| | | |l0| |]|] eqn:Ht; try discriminate.
  destruct (Py.lookup "name" members) as [[| | | |n0| |]|] eqn:Hn; try discriminate.
  destruct (param (field_or (JStr "") "description" members)) as [d0|] eqn:Hd;
    try discriminate.
  destruct (is_identifier l0) eqn:Hid; try discriminate.
  intros [= <- <- <-].
  unfold ingest_entity. run_monad. rewrite get_field_or.
  unfold Py.subscript. rewrite Ht, Hn. cbn [Py.as_str].
  unfold session_run. cbn [cypher param graph with_graph]. rewrite Hid, Hd.
  reflexivity.
Qed.

Lemma ingest_relationship_fields (rel : json) (t : string)
    (a b : option string) (w : World) :
  relationship_fields rel = Some (t, a, b) ->
  ingest_relationship rel w
  = Returns tt (with_graph (relationship_step (graph w) (t, a, b)) w).
Proof.
  destruct rel as [| | | | | |members]; try discriminate.
  unfold relationship_fields.
  destruct (Py.lookup "type" members) as [[| | | |t0| |]|] eqn:Ht; try discriminate.
  destruct (Py.lookup "from" members) as [a0|] eqn:Ha; try discriminate.
  destruct (Py.lookup "to" members) as [b0|] eqn:Hb; try discriminate.
  destruct (param a0) as [a1|] eqn:Hpa; try discriminate.
  destruct (param b0) as [b1|] eqn:Hpb; try discriminate.
  destruct (is_identifier t0) eqn:Hid; try discriminate.
  intros [= <- <- <-].
  unfold ingest_relationship. run_monad.
  unfold Py.subscript. rewrite Ht, Ha, Hb.
  unfold session_run. cbn [cypher]. rewrite Hid, Hpa, Hpb. reflexivity.
Qed.

Lemma for_each_fields (A : Type) (f : json -> option A) (body : json -> M unit)
    (step : Graph -> A -> Graph) (items : list json) (l : list A) (w : World) :
  (forall x a w, f x = Some a ->
                 body x w = Returns tt (with_graph (step (graph w) a) w)) ->
  all_fields f items = Some l ->
  for_each items body w = Returns tt (with_graph (fold_left step l (graph w)) w).
Proof.
  intro Hb. revert l w. induction items as [|x items IH]; intros l w Hall.
  - injection Hall as <-. cbn. now rewrite with_graph_same.
  - cbn [all_fields] in Hall.
    destruct (f x) as [a|] eqn:Hx; [|discriminate].
    destruct (all_fields f items) as [l'|] eqn:Hl; [|discriminate].
    injection Hall as <-. cbn [for_each fold_left]. unfold bind.
    rewrite (Hb x a w Hx), (IH l' _ eq_refl). reflexivity.
Qed.

Lemma ingest_chunk_fields (i : nat) (doc : Document) (c : ChunkFields) (w : World) :
  extraction_fields (extraction_of (text doc)) = Some c ->
  ingest_chunk i doc w
  = Returns tt (with_graph (chunk_graph i c (graph w))
                  (record_request (extraction_request (text doc)) w)).
Proof.
  intro Hc. unfold ingest_chunk, bind at 1. rewrite extract_returns.
  set (w1 := record_request _ w). set (r := extraction_of (text doc)) in *.
  unfold extraction_fields in Hc.
  destruct (entities r) as [| | | | |es|] eqn:He; try discriminate.
  destruct (relationships r) as [| | | | |rs|] eqn:Hr; try discriminate.
  destruct (param (chunk_summary r)) as [s|] eqn:Hs; try discriminate.
  destruct (all_fields entity_fields es) as [el|] eqn:Hel; try discriminate.
  destruct (all_fields relationship_fields rs) as [rl|] eqn:Hrl; try discriminate.
  injection Hc as <-. unfold chunk_graph. cbn [entity_list relationship_list summary_field].
  destruct es as [|e es].
  - cbn in Hel. injection Hel as <-. change (graph w) with (graph w1).
    rewrite with_graph_same. reflexivity.
  - assert (Hne : exists a l, el = a :: l).
    { cbn [all_fields] in Hel. destruct (entity_fields e); [|discriminate].
      destruct (all_fields entity_fields es); [|discriminate].
      injection Hel as <-. eauto. }
    destruct el as [|a l]; [destruct Hne as (? & ? & ?); discriminate|].
    clear Hne.
    cbn [Py.truthy negb]. run_monad. unfold session_run at 1.
    cbn [cypher]. rewrite Hs. cbn [Py.iter].
    assert (Hbe : forall x v w0, entity_fields x = Some v ->
              ingest_entity (chunk_id_of i) x w0
              = Returns tt (with_graph (entity_step (chunk_id_of i) (graph w0) v) w0))
      by (intros x [[l0 n0] d0] w0; apply ingest_entity_fields).
    assert (Hbr : forall x v w0, relationship_fields x = Some v ->
              ingest_relationship x w0
              = Returns tt (with_graph (relationship_step (graph w0) v) w0))
      by (intros x [[t0 a0] b0] w0; apply ingest_relationship_fields).
    rewrite (@for_each_fields _ entity_fields _ _ (e :: es) (a :: l) _ Hbe Hel).
    rewrite (@for_each_fields _ relationship_fields _ _ rs rl _ Hbr Hrl).
    reflexivity.
Qed.

Lemma well_formed_fields (d : Document) :
  well_formed (extraction_of (text d)) = true ->
  extraction_fields (extraction_of (text d)) = Some (fields_of d).
Proof.
  unfold well_formed, fields_of.
  destruct (extraction_fields (extraction_of (text d))); [reflexivity|discriminate].
Qed.

Lemma run_fields (ds : list Document) (i : nat) (w : World) :
  (forall d, In d ds -> well_formed (extraction_of (text d)) = true) ->
  for_enumerate i ds ingest_chunk w
  = Returns tt {| graph := run_graph i (map fields_of ds) (graph w);
                  sent := sent w ++ requests_of ds |}.
Proof.
  revert i w. induction ds as [|d ds IH]; intros i w Hwf.
  - cbn. rewrite app_nil_r. destruct w; reflexivity.
  - cbn [for_enumerate map run_graph]. unfold bind.
    rewrite (ingest_chunk_fields i d w (well_formed_fields d (Hwf d (or_introl eq_refl)))).
    rewrite IH by (intros d' Hd'; apply Hwf; now right).
    cbn. rewrite <- app_assoc. reflexivity.
Qed.

Lemma has_entities_truthy (d : Document) :
  well_formed (extraction_of (text d)) = true ->
  has_entities (fields_of d) = Py.truthy (entities (extraction_of (text d))).
Proof.
  unfold well_formed, fields_of, extraction_fields, has_entities.
  destruct (entities (extraction_of (text d))) as [| | | | |es|]; try discriminate.
  destruct (relationships (extraction_of (text d))) as [| | | | |rs|]; try discriminate.
  destruct (param (chunk_summary (extraction_of (text d)))); try discriminate.
  destruct es as [|e es]; cbn [all_fields].
  - destruct (all_fields relationship_fields rs); [reflexivity|discriminate].
  - destruct (entity_fields e); [|discriminate].
    destruct (all_fields entity_fields es); [|discriminate].
    destruct (all_fields relationship_fields rs); [reflexivity|discriminate].
Qed.

Lemma count_chunks_with_entities (ds : list Document) :
  (forall d, In d ds -> well_formed (extraction_of (text d)) = true) ->
  length (filter has_entities (map fields_of ds))
  = length (filter (fun d => Py.truthy (entities (extraction_of (text d)))) ds).
Proof.
  induction ds as [|d ds IH]; intro Hwf; [reflexivity|].
  cbn [map filter]. rewrite (has_entities_truthy d) by (apply Hwf; now left).
  destruct (Py.truthy (entities (extraction_of (text d)))); cbn [length];
    rewrite IH by (intros d' Hd'; apply Hwf; now right); reflexivity.
Qed.

(** C1, as the code has it.  When the chunks' extraction output has the
    shape the prompt asks for, a second pass over the same chunks adds no
    entity node: the store keeps at most one node per (type, name) pair,
    with the same count for every pair, and never holds the same edge
    twice.  The Document node is created anew for every chunk that has
    entities, so the node count after the second pass is the count after
    the first plus the number of those chunks. *)
Theorem second_pass_adds_documents_only (documents : list Document) (w : World) :
  (forall d, In d (firstn 20 documents) ->
             well_formed (extraction_of (text d)) = true) ->
  unique_entities (graph w) ->
  NoDup (edges (graph w)) ->
  exists w1 w2,
    ingest_documents_semantically documents w = Returns tt w1
    /\ ingest_documents_semantically documents w1 = Returns tt w2
    /\ unique_entities (graph w2)
    /\ NoDup (edges (graph w2))
    /\ (forall l n, count_entity l n (graph w2) = count_entity l n (graph w1))
    /\ length (nodes (graph w2))
       = length (nodes (graph w1)) + chunks_with_entities documents.
Proof.
  intros Hwf Hu Hn. unfold ingest_documents_semantically, chunks_with_entities.
  set (ds := firstn 20 documents) in *. set (cs := map fields_of ds).
  eexists. eexists.
  split; [apply (run_fields ds 0 w Hwf)|].
  split; [apply (run_fields ds 0 _ Hwf)|].
  cbn [graph].
  set (g1 := run_graph 0 cs (graph w)). set (g2 := run_graph 0 cs g1).
  destruct (grows_run_graph cs 0 (graph w)) as (_ & Hu1 & Hn1).
  destruct (grows_run_graph cs 0 g1) as (_ & Hu2 & Hn2).
  assert (Hs : settled (length (filter has_entities cs)) g1 g2).
  { apply settled_run_graph. intros c l n d Hc Hin.
    now apply (run_graph_present cs 0 (graph w) c l n d). }
  destruct Hs as [Hcount Hlen].
  repeat split; auto.
  fold cs g1 g2. rewrite Hlen. f_equal. now apply count_chunks_with_entities.
Qed.

(** A run on a cleared store leaves at most one node per (type, name)
    pair and no edge twice. *)
Lemma run_after_clear_unique (documents : list Document) (w : World) :
  (forall d, In d (firstn 20 documents) ->
             well_formed (extraction_of (text d)) = true) ->
  exists w1,
    (clear_graph ;;; ingest_documents_semantically documents) w = Returns tt w1
    /\ unique_entities (graph w1)
    /\ NoDup (edges (graph w1)).
Proof.
  intro Hwf. unfold bind, clear_graph, ingest_documents_semantically.
  eexists. split; [apply (run_fields (firstn 20 documents) 0 _ Hwf)|].
  cbn [graph with_graph].
  destruct (grows_run_graph (map fields_of (firstn 20 documents)) 0 empty_graph)
    as (_ & Hu & Hn).
  split.
  - apply Hu. intros l n. cbn. lia.
  - apply Hn. constructor.
Qed.

(** The node that [CREATE] writes for a chunk has no [name] property:
    no relationship endpoint binds to it. *)
Lemma created_document_unnamed (chunk_id : string) (summary : option string)
    (g : Graph) (n : Node) (s : string) :
  In n (nodes (create_document chunk_id summary g)) ->
  has_prop "name" s n = true ->
  In n (nodes g).
Proof.
  unfold create_document, add_node. cbn [nodes]. rewrite in_app_iff.
  intros [Hin | [<- | []]] Hp; [exact Hin|].
  destruct summary; discriminate Hp.
Qed.

(* ----------------------------------------------------------------- *)
(** *** Further behaviour of the extractor *)

(** Whatever the service and the decoder do, the extractor returns: it
    raises nothing, sends one request and leaves the graph alone. *)
Theorem extractor_never_raises (text_chunk : string) (w : World) :
  exists r w1,
    extract_entities_from_chunk text_chunk w = Returns r w1
    /\ graph w1 = graph w
    /\ sent w1 = sent w ++ [extraction_request text_chunk].
Proof.
  exists (extraction_of text_chunk),
         (record_request (extraction_request text_chunk) w).
  split; [apply extract_returns | split; reflexivity].
Qed.

(** A response without choices, or whose first message has no content,
    gives the empty result. *)
Theorem missing_content_yields_fallback (text_chunk : string) (w : World)
    (response : ChatCompletion) :
  chat_completions_create (extraction_request text_chunk) = inr response ->
  choices response = [] \/ (exists others, choices response = None :: others) ->
  extract_entities_from_chunk text_chunk w
  = Returns fallback (record_request (extraction_request text_chunk) w).
Proof.
  intros Hc Hn. unfold extract_entities_from_chunk. run_monad. rewrite Hc.
  unfold message_content, Py.getitem.
  destruct Hn as [-> | [others ->]]; reflexivity.
Qed.

(** A reply that decodes to JSON of another kind than an object (a list,
    a number, a string, a literal) gives the empty result. *)
Theorem non_object_reply_yields_fallback (text_chunk : string) (w : World)
    (response : ChatCompletion) (content json_str : string) (v : json) :
  chat_completions_create (extraction_request text_chunk) = inr response ->
  message_content response = inr (Some content) ->
  strip_code_fence (Py.strip content) = inr json_str ->
  json_loads json_str = Some v ->
  (forall members, v <> JObj members) ->
  extract_entities_from_chunk text_chunk w
  = Returns fallback (record_request (extraction_request text_chunk) w).
Proof.
  intros Hc Hm Hf Hj Hv.
  rewrite (@extract_decoded text_chunk w _ _ _ _ Hc Hm Hf Hj).
  destruct v; try reflexivity. now destruct (Hv members).
Qed.

Lemma split_aux_nonempty (sep : string) (s : string) (skip : nat) (cur : string) :
  Py.split_aux sep skip cur s <> [].
Proof.
  revert skip cur. induction s as [|c s IH]; intros skip cur; cbn [Py.split_aux].
  - discriminate.
  - destruct skip; [|apply IH].
    destruct (String.prefix sep (String c s)); [discriminate | apply IH].
Qed.

(** Stripping the fence cannot fail: the two subscripts after the
    [split] calls are always in range. *)
Theorem strip_code_fence_total (json_str : string) :
  exists payload, strip_code_fence json_str = inr payload.
Proof.
  unfold strip_code_fence, Py.startswith.
  destruct (String.prefix "```json" json_str) eqn:Hp; [|eauto].
  destruct json_str as [|c s]; [discriminate Hp|].
  unfold Py.split at 1. cbn [Py.split_aux]. rewrite Hp.
  destruct (Py.split_aux "```json" (String.length "```json" - 1) EmptyString s)
    as [|piece pieces] eqn:Hs;
    [exfalso; exact (split_aux_nonempty _ _ _ _ Hs)|].
  unfold Py.getitem at 1. cbn [nth_error]. rewrite split_first. eauto.
Qed.

Lemma contains_tag_false (s : string) :
  Py.contains "```" s = false -> Py.contains "```json" s = false.
Proof.
  induction s as [|c s IH]; [reflexivity|]. cbn [Py.contains].
  intro H. apply orb_false_iff in H as [Hp Hc]. rewrite (IH Hc), orb_false_r.
  destruct (String.prefix "```json" (String c s)) eqn:Ht; [|reflexivity].
  apply prefix_fence_tag in Ht. congruence.
Qed.

(** A tagged fence that is never closed (a reply cut short): the payload
    is all the text after the tag. *)
Theorem unclosed_fence_payload (inner : string) :
  Py.contains "```" inner = false ->
  strip_code_fence ("```json" ++ inner) = inr inner.
Proof.
  intro Hc. unfold strip_code_fence.
  replace (Py.startswith "```json" ("```json" ++ inner)) with true
    by (unfold Py.startswith; simpl; now rewrite prefix_empty).
  rewrite split_after_fence, split_first.
  rewrite (contains_false_before _ _ (contains_tag_false _ Hc)).
  rewrite (contains_false_before _ _ Hc). reflexivity.
Qed.

(* ----------------------------------------------------------------- *)
(** *** Further behaviour of the ingestion loop *)

(** Any extraction whose [entities] is false in the Python sense (the
    empty list, but also null, [false], zero, the empty string, the empty
    object) makes the loop pass the chunk over. *)
Theorem falsy_entities_chunk_skipped (i : nat) (doc : Document)
    (w w1 : World) (r : EntityExtractionResult) :
  extract_entities_from_chunk (text doc) w = Returns r w1 ->
  Py.truthy (entities r) = false ->
  ingest_chunk i doc w = Returns tt w1 /\ graph w1 = graph w.
Proof.
  intros Hx Hr. split.
  - unfold ingest_chunk, bind. rewrite Hx, Hr. reflexivity.
  - rewrite extract_returns in Hx. injection Hx as _ <-. reflexivity.
Qed.

(** A failure of the completion service on a chunk does not reach the
    ingestion loop: the chunk is passed over. *)
Theorem service_failure_skips_chunk (i : nat) (doc : Document) (w : World)
    (e : exn) :
  chat_completions_create (extraction_request (text doc)) = inl e ->
  ingest_chunk i doc w
  = Returns tt (record_request (extraction_request (text doc)) w).
Proof.
  intro He.
  assert (Hx : extract_entities_from_chunk (text doc) w
               = Returns fallback (record_request (extraction_request (text doc)) w)).
  { unfold extract_entities_from_chunk. run_monad. rewrite He. reflexivity. }
  unfold ingest_chunk, bind. rewrite Hx. reflexivity.
Qed.

Lemma for_enumerate_all_skipped (ds : list Document) (i : nat) (w : World) :
  (forall d, In d ds -> Py.truthy (entities (extraction_of (text d))) = false) ->
  for_enumerate i ds ingest_chunk w
  = Returns tt {| graph := graph w; sent := sent w ++ requests_of ds |}.
Proof.
  revert i w. induction ds as [|d ds IH]; intros i w H.
  - cbn. rewrite app_nil_r. destruct w; reflexivity.
  - cbn [for_enumerate]. unfold bind.
    assert (Hd : ingest_chunk i d w
                 = Returns tt (record_request (extraction_request (text d)) w)).
    { unfold ingest_chunk, bind.
      rewrite extract_returns, (H d (or_introl eq_refl)). reflexivity. }
    rewrite Hd.
    rewrite IH by (intros d' Hd'; apply H; now right).
    cbn. rewrite <- app_assoc. reflexivity.
Qed.

(** When no chunk yields entities, the run returns with the graph as it
    was, having sent the requests of the first twenty chunks. *)
Theorem run_without_entities_writes_nothing (documents : list Document) (w : World) :
  (forall d, In d (firstn 20 documents) ->
             Py.truthy (entities (extraction_of (text d))) = false) ->
  ingest_documents_semantically documents w
  = Returns tt {| graph := graph w;
                  sent := sent w ++ requests_of (firstn 20 documents) |}.
Proof. intro H. now apply for_enumerate_all_skipped. Qed.

(** A run that returns has sent one request for each of the first twenty
    chunks, in order, and no other. *)
Theorem returning_run_requests (documents : list Document) (w w1 : World) :
  ingest_documents_semantically documents w = Returns tt w1 ->
  sent w1 = sent w ++ requests_of (firstn 20 documents).
Proof. apply for_enumerate_sent_returns. Qed.

(** An entity object without a [type], or with a [type] but without a
    [name], raises [KeyError] before anything is sent to the store. *)
Theorem entity_missing_key_raises (chunk_id : string)
    (members : list (string * json)) (w : World) :
  (Py.lookup "type" members = None ->
   ingest_entity chunk_id (JObj members) w = Raises (KeyError "type") w)
  /\ (Py.lookup "type" members <> None -> Py.lookup "name" members = None ->
      ingest_entity chunk_id (JObj members) w = Raises (KeyError "name") w).
Proof.
  split; unfold ingest_entity; run_monad; unfold Py.subscript.
  - intros ->. reflexivity.
  - intros Ht ->. destruct (Py.lookup "type" members); [reflexivity | now destruct Ht].
Qed.

(** A relationship object that lacks one of [type], [from], [to] raises
    [KeyError] for the first one missing, in that order, and nothing is
    sent to the store. *)
Theorem relationship_missing_key_raises (members : list (string * json)) (w : World) :
  (Py.lookup "type" members = None ->
   ingest_relationship (JObj members) w = Raises (KeyError "type") w)
  /\ (Py.lookup "type" members <> None -> Py.lookup "from" members = None ->
      ingest_relationship (JObj members) w = Raises (KeyError "from") w)
  /\ (Py.lookup "type" members <> None -> Py.lookup "from" members <> None ->
      Py.lookup "to" members = None ->
      ingest_relationship (JObj members) w = Raises (KeyError "to") w).
Proof.
  repeat split; unfold ingest_relationship; run_monad; unfold Py.subscript.
  - intros ->. reflexivity.
  - intros Ht ->. destruct (Py.lookup "type" members); [reflexivity | now destruct Ht].
  - intros Ht Hf ->.
    destruct (Py.lookup "type" members); [|now destruct Ht].
    destruct (Py.lookup "from" members); [reflexivity | now destruct Hf].
Qed.


(** A relationship of the requested shape, its type a symbolic name and
    its [from] and [to] strings or null, one of them null: the null
    endpoint matches no node, and the relationship is dropped without an
    error, the world as it was. *)
Theorem null_endpoint_relationship_dropped (rel : json) (t : string)
    (a b : option string) (w : World) :
  relationship_fields rel = Some (t, a, b) ->
  a = None \/ b = None ->
  ingest_relationship rel w = Returns tt w.
Proof.
  intros Hf Hn. rewrite (@ingest_relationship_fields rel _ _ _ w Hf).
  rewrite <- (with_graph_same w) at 3. f_equal. f_equal.
  unfold relationship_step, merge_relationship, merge_edges.
  assert (Hnone : forall ns, filter (has_param "name" None) ns = []).
  { intro ns. induction ns; [reflexivity | assumption]. }
  destruct Hn as [-> | ->]; rewrite Hnone; [|rewrite list_prod_nil_r];
    destruct (graph w); reflexivity.
Qed.

(* ----------------------------------------------------------------- *)
(** *** What the statements write *)

Lemma lookup_replace_same (k : string) (v : json) (ps : list (string * json)) :
  Py.lookup k (replace_prop k v ps) = Some v.
Proof.
  induction ps as [|[k0 v0] ps IH]; cbn [replace_prop Py.lookup].
  - rewrite String.eqb_refl. reflexivity.
  - destruct (String.eqb k k0) eqn:Hk; cbn [Py.lookup].
    + rewrite String.eqb_refl. reflexivity.
    + rewrite Hk. exact IH.
Qed.

Lemma lookup_remove_same (k : string) (ps : list (string * json)) :
  Py.lookup k (remove_prop k ps) = None.
Proof.
  induction ps as [|[k0 v0] ps IH]; cbn [remove_prop Py.lookup]; [reflexivity|].
  destruct (String.eqb k k0) eqn:Hk; cbn [Py.lookup]; [exact IH|].
  rewrite Hk. exact IH.
Qed.

Lemma prop_set_description (d : option string) (x : Node) :
  prop "description" (set_prop "description" d x) = option_map JStr d.
Proof.
  unfold prop, set_prop. cbn [props].
  destruct d; [apply lookup_replace_same | apply lookup_remove_same].
Qed.

Lemma prop_set_other (k : string) (d : option string) (x : Node) :
  String.eqb k "description" = false ->
  prop k (set_prop "description" d x) = prop k x.
Proof.
  intro Hk. unfold prop, set_prop. cbn [props].
  destruct d; [now apply lookup_replace_other | now apply lookup_remove_other].
Qed.

Lemma merge_entity_description (l n : string) (d : option string) (g : Graph)
    (x : Node) :
  In x (nodes (merge_entity l n d g)) ->
  entity_match l n x = true ->
  prop "description" x = option_map JStr d.
Proof.
  rewrite merge_entity_nodes, in_map_iff. intros (x0 & Hx & _) Hm.
  destruct (entity_match l n x0) eqn:H0; subst x.
  - apply prop_set_description.
  - congruence.
Qed.

Lemma keeps_refl (g : Graph) : keeps g g.
Proof.
  split; [apply incl_refl|]. intros x Hx. exists x. auto.
Qed.

Lemma keeps_trans (g1 g2 g3 : Graph) : keeps g1 g2 -> keeps g2 g3 -> keeps g1 g3.
Proof.
  intros [He1 Hn1] [He2 Hn2]. split; [eapply incl_tran; eassumption|].
  intros x Hx. destruct (Hn1 x Hx) as (x1 & Hx1 & Hi1 & Hl1 & Hp1).
  destruct (Hn2 x1 Hx1) as (x2 & Hx2 & Hi2 & Hl2 & Hp2).
  exists x2. repeat split; try congruence.
  intros k Hk. rewrite (Hp2 k Hk). now apply Hp1.
Qed.

Lemma keeps_create_document (c : string) (s : option string) (g : Graph) :
  keeps g (create_document c s g).
Proof.
  split; [apply incl_refl|]. intros x Hx. exists x.
  unfold create_document, add_node. cbn [nodes]. rewrite in_app_iff. auto.
Qed.

Lemma keeps_merge_entity (l n : string) (d : option string) (g : Graph) :
  keeps g (merge_entity l n d g).
Proof.
  split.
  - unfold merge_entity.
    destruct (existsb (entity_match l n) (nodes g)); apply incl_refl.
  - intros x Hx.
    exists (if entity_match l n x then set_prop "description" d x else x).
    split.
    + rewrite merge_entity_nodes.
      apply (in_map (fun y => if entity_match l n y
                              then set_prop "description" d y else y)).
      destruct (existsb (entity_match l n) (nodes g)); [exact Hx|].
      apply in_app_iff. now left.
    + destruct (entity_match l n x); [|auto].
      repeat split. intros k Hk. now apply prop_set_other.
Qed.

Lemma keeps_merge_edges (t : string) (froms tos : list Node) (g : Graph) :
  keeps g (merge_edges t froms tos g).
Proof.
  split.
  - intros e He. apply merge_edges_in. now left.
  - intros x Hx. exists x. auto.
Qed.

Lemma keeps_entity_step (cid : string) (g : Graph)
    (e : string * string * option string) :
  keeps g (entity_step cid g e).
Proof.
  destruct e as [[l n] d]. unfold entity_step, link_document.
  eapply keeps_trans; [apply keeps_merge_entity | apply keeps_merge_edges].
Qed.

Lemma keeps_relationship_step (g : Graph)
    (r : string * option string * option string) :
  keeps g (relationship_step g r).
Proof.
  destruct r as [[t a] b]. unfold relationship_step, merge_relationship.
  apply keeps_merge_edges.
Qed.

Lemma keeps_fold (A : Type) (step : Graph -> A -> Graph) (xs : list A) (g : Graph) :
  (forall g x, keeps g (step g x)) -> keeps g (fold_left step xs g).
Proof.
  intro Hs. revert g. induction xs as [|x xs IH]; intro g; cbn [fold_left].
  - apply keeps_refl.
  - eapply keeps_trans; [apply Hs | apply IH].
Qed.

Lemma keeps_chunk_graph (i : nat) (c : ChunkFields) (g : Graph) :
  keeps g (chunk_graph i c g).
Proof.
  unfold chunk_graph. destruct (entity_list c) as [|e es].
  - apply keeps_refl.
  - eapply keeps_trans; [apply keeps_create_document|].
    eapply keeps_trans; apply keeps_fold;
      [apply keeps_entity_step | apply keeps_relationship_step].
Qed.

Lemma keeps_run_graph (cs : list ChunkFields) (i : nat) (g : Graph) :
  keeps g (run_graph i cs g).
Proof.
  revert i g. induction cs as [|c cs IH]; intros i g; cbn [run_graph].
  - apply keeps_refl.
  - eapply keeps_trans; [apply keeps_chunk_graph | apply IH].
Qed.

(** A run deletes nothing: every edge stays, and every node stays with
    its identifier, its labels and its properties, the description
    apart. *)
Theorem run_keeps_nodes_and_edges (documents : list Document) (w : World) :
  (forall d, In d (firstn 20 documents) ->
             well_formed (extraction_of (text d)) = true) ->
  exists w1,
    ingest_documents_semantically documents w = Returns tt w1
    /\ incl (edges (graph w)) (edges (graph w1))
    /\ forall x, In x (nodes (graph w)) ->
         exists x', In x' (nodes (graph w1))
           /\ node_id x' = node_id x
           /\ labels x' = labels x
           /\ forall k, String.eqb k "description" = false ->
                        prop k x' = prop k x.
Proof.
  intro Hwf. unfold ingest_documents_semantically.
  eexists. split; [apply (run_fields (firstn 20 documents) 0 w Hwf)|].
  apply keeps_run_graph.
Qed.

(** The description of an entity is overwritten: after an entity is
    ingested, there is a node of its type and name, and every such node
    has the description just given (none, when it is null). *)
Theorem entity_description_overwritten (chunk_id : string) (entity : json)
    (l n : string) (d : option string) (w : World) :
  entity_fields entity = Some (l, n, d) ->
  exists g',
    ingest_entity chunk_id entity w = Returns tt (with_graph g' w)
    /\ 1 <= count_entity l n g'
    /\ forall x, In x (nodes g') -> entity_match l n x = true ->
                 prop "description" x = option_map JStr d.
Proof.
  intro Hf. eexists. split; [apply (ingest_entity_fields chunk_id entity w Hf)|].
  unfold entity_step, link_document. split.
  - rewrite count_merge_edges. apply merge_entity_present.
  - intros x Hx Hm. cbn [merge_edges nodes] in Hx.
    exact (@merge_entity_description l n d (graph w) x Hx Hm).
Qed.


Lemma has_document_keeps (cid : string) (g g' : Graph) :
  keeps g g' -> has_document cid g -> has_document cid g'.
Proof.
  intros [_ Hn] (dn & Hin & Hl & Hp).
  destruct (Hn dn Hin) as (dn' & Hin' & _ & Hl' & Hp').
  exists dn'. split; [exact Hin'|]. split.
  - unfold has_label in *. now rewrite Hl'.
  - unfold has_prop in *. now rewrite (Hp' "chunk_id" eq_refl).
Qed.

Lemma entity_match_keeps (l n : string) (x x' : Node) :
  labels x' = labels x ->
  (forall k, String.eqb k "description" = false -> prop k x' = prop k x) ->
  entity_match l n x' = entity_match l n x.
Proof.
  intros Hl Hp. unfold entity_match, has_label, has_prop.
  now rewrite Hl, (Hp "name" eq_refl).
Qed.

Lemma linked_keeps (cid l n : string) (g g' : Graph) :
  keeps g g' -> linked cid l n g -> linked cid l n g'.
Proof.
  intros [He Hn] (dn & e & Hdn & He' & Hl & Hp & Hm & Hedge).
  destruct (Hn dn Hdn) as (dn1 & Hdn1 & Hid1 & Hl1 & Hp1).
  destruct (Hn e He') as (e1 & He1 & Hide & Hle & Hpe).
  exists dn1, e1. repeat split; try assumption.
  - unfold has_label in *. now rewrite Hl1.
  - unfold has_prop in *. now rewrite (Hp1 "chunk_id" eq_refl).
  - now rewrite (entity_match_keeps l n e e1 Hle Hpe).
  - apply He. unfold edge_between in *. now rewrite Hid1, Hide.
Qed.

Lemma entity_step_linked (cid l n : string) (d : option string) (g : Graph) :
  has_document cid g -> linked cid l n (entity_step cid g (l, n, d)).
Proof.
  intro Hd. unfold entity_step, link_document.
  apply (has_document_keeps (keeps_merge_entity l n d g)) in Hd.
  destruct Hd as (dn & Hdn & Hl & Hp).
  pose proof (merge_entity_present l n d g) as He.
  apply existsb_true_count, existsb_exists in He as (e & He & Hm).
  exists dn, e. cbn [merge_edges nodes]. repeat split; try assumption.
  apply merge_edges_in. right. exists dn, e.
  repeat split; apply filter_In; split; try assumption.
  now rewrite Hl, Hp.
Qed.

Lemma fold_entities_linked (cid : string)
    (es : list (string * string * option string)) (g : Graph)
    (l n : string) (d : option string) :
  has_document cid g -> In (l, n, d) es ->
  linked cid l n (fold_left (entity_step cid) es g).
Proof.
  revert g. induction es as [|e es IH]; intros g Hd Hin; [destruct Hin|].
  cbn [fold_left]. destruct Hin as [-> | Hin].
  - eapply linked_keeps; [apply keeps_fold, keeps_entity_step|].
    now apply entity_step_linked.
  - apply IH; [|exact Hin].
    eapply has_document_keeps; [apply keeps_entity_step | exact Hd].
Qed.

Lemma chunk_graph_linked (i : nat) (c : ChunkFields) (g : Graph)
    (l n : string) (d : option string) :
  In (l, n, d) (entity_list c) ->
  linked (chunk_id_of i) l n (chunk_graph i c g).
Proof.
  intro Hin. unfold chunk_graph.
  destruct (entity_list c) as [|e es] eqn:He; [destruct Hin|].
  eapply linked_keeps; [apply keeps_fold, keeps_relationship_step|].
  apply fold_entities_linked with (d := d); [|exact Hin].
  exists {| node_id := fresh_id g; labels := ["Document"];
            props := ("chunk_id", JStr (chunk_id_of i))
                     :: match summary_field c with
                        | Some s => [("summary", JStr s)]
                        | None => []
                        end |}.
  split.
  - unfold create_document, add_node. cbn [nodes]. apply in_app_iff.
    right. now left.
  - split; [reflexivity|]. unfold has_prop, prop. cbn.
    apply String.eqb_refl.
Qed.

Lemma run_graph_linked (cs : list ChunkFields) (i j : nat) (g : Graph)
    (c : ChunkFields) (l n : string) (d : option string) :
  nth_error cs j = Some c -> In (l, n, d) (entity_list c) ->
  linked (chunk_id_of (i + j)) l n (run_graph i cs g).
Proof.
  revert i j g. induction cs as [|c0 cs IH]; intros i j g Hj Hin.
  - destruct j; discriminate Hj.
  - cbn [run_graph]. destruct j as [|j]; cbn [nth_error] in Hj.
    + injection Hj as ->. rewrite Nat.add_0_r.
      eapply linked_keeps; [apply keeps_run_graph|].
      exact (@chunk_graph_linked i c g l n d Hin).
    + replace (i + S j) with (S i + j) by lia.
      exact (IH (S i) j (chunk_graph i c0 g) Hj Hin).
Qed.

(** After a run, the chunk at position [j] has a Document node with the
    identifier of that position, linked to a node of each entity the
    chunk mentions: an entity that several chunks mention is one node,
    linked from each of them. *)
Theorem chunks_linked_after_run (documents : list Document) (w : World) :
  (forall d, In d (firstn 20 documents) ->
             well_formed (extraction_of (text d)) = true) ->
  exists w1,
    ingest_documents_semantically documents w = Returns tt w1
    /\ forall j doc l n d,
         nth_error (firstn 20 documents) j = Some doc ->
         In (l, n, d) (entity_list (fields_of doc)) ->
         linked (chunk_id_of j) l n (graph w1).
Proof.
  intro Hwf. unfold ingest_documents_semantically.
  eexists. split; [apply (run_fields (firstn 20 documents) 0 w Hwf)|].
  intros j doc l n d Hj Hin. cbn [graph].
  apply (@run_graph_linked (map fields_of (firstn 20 documents)) 0 j
           (graph w) (fields_of doc) l n d); [|exact Hin].
  rewrite nth_error_map, Hj. reflexivity.
Qed.

Lemma to_uint_not_nil (i : nat) : Nat.to_uint i <> Decimal.Nil.
Proof.
  intro H. pose proof (DecimalNat.Unsigned.of_to i) as Hi. rewrite H in Hi.
  cbn in Hi. subst i. discriminate H.
Qed.

(** Chunks at different positions get different identifiers. *)
Theorem chunk_id_of_injective (i j : nat) :
  chunk_id_of i = chunk_id_of j <-> i = j.
Proof.
  split; [|now intros ->].
  unfold chunk_id_of, Py.str_of_nat. intro H. cbn [append] in H.
  injection H as H.
  apply DecimalNat.Unsigned.to_uint_inj.
  pose proof (NilZero.usu (Nat.to_uint i) (to_uint_not_nil i)) as Hi.
  pose proof (NilZero.usu (Nat.to_uint j) (to_uint_not_nil j)) as Hj.
  rewrite H in Hi. congruence.
Qed.

(* ----------------------------------------------------------------- *)
(** *** The chain-of-thought query *)

(** When the retrieval raises, the query raises the same exception and
    no request goes to the completion service. *)
Theorem retrieval_failure_sends_nothing (question : string) (w : World) (e : exn) :
  retrieve question (graph w) = inl e ->
  query_with_chain_of_thought question w = Raises e w.
Proof.
  intro Hr. unfold query_with_chain_of_thought, query_engine_retrieve.
  run_monad. rewrite Hr. reflexivity.
Qed.

(** The answer is the content of the first choice, as the service gave
    it: a string, or [None] when the message has no content. *)
Theorem query_returns_first_choice (question : string) (w : World)
    (fragments : list string) (response : ChatCompletion)
    (content : option string) (others : list (option string)) :
  retrieve question (graph w) = inr fragments ->
  chat_completions_create (cot_request question (context_of fragments))
  = inr response ->
  choices response = content :: others ->
  query_with_chain_of_thought question w
  = Returns content
      (record_request (cot_request question (context_of fragments)) w).
Proof.
  intros Hr Hc Hch. unfold query_with_chain_of_thought, query_engine_retrieve.
  run_monad. rewrite Hr, Hc. unfold message_content, Py.getitem. rewrite Hch.
  reflexivity.
Qed.

(** A response without choices makes the query raise [IndexError],
    after the request was sent. *)
Theorem query_without_choices_raises (question : string) (w : World)
    (fragments : list string) (response : ChatCompletion) :
  retrieve question (graph w) = inr fragments ->
  chat_completions_create (cot_request question (context_of fragments))
  = inr response ->
  choices response = [] ->
  query_with_chain_of_thought question w
  = Raises IndexError
      (record_request (cot_request question (context_of fragments)) w).
Proof.
  intros Hr Hc Hch. unfold query_with_chain_of_thought, query_engine_retrieve.
  run_monad. rewrite Hr, Hc. unfold message_content, Py.getitem. rewrite Hch.
  reflexivity.
Qed.

Lemma query_graph_unchanged (question : string) (w : World) :
  graph (final_world (query_with_chain_of_thought question w)) = graph w.
Proof.
  unfold query_with_chain_of_thought, query_engine_retrieve. run_monad.
  destruct (retrieve question (graph w)) as [e|fragments]; [reflexivity|].
  destruct (chat_completions_create (cot_request question (context_of fragments)))
    as [e|response]; [reflexivity|].
  destruct (message_content response); reflexivity.
Qed.

(** However a query ends, it has not written to the graph and has sent
    at most one request. *)
Theorem query_leaves_graph (question : string) (w : World) :
  graph (final_world (query_with_chain_of_thought question w)) = graph w
  /\ (sent (final_world (query_with_chain_of_thought question w)) = sent w
      \/ exists request,
           sent (final_world (query_with_chain_of_thought question w))
           = sent w ++ [request]).
Proof.
  unfold query_with_chain_of_thought, query_engine_retrieve. run_monad.
  destruct (retrieve question (graph w)) as [e|fragments]; [cbn; auto|].
  destruct (chat_completions_create (cot_request question (context_of fragments)))
    as [e|response]; [cbn; eauto|].
  destruct (message_content response); cbn; eauto.
Qed.

Lemma length_append_string (a b : string) :
  String.length (a ++ b) = String.length a + String.length b.
Proof. induction a; cbn; congruence. Qed.

Lemma concat_cons2 (sep x y : string) (xs : list string) :
  String.concat sep (x :: y :: xs)
  = (x ++ sep ++ String.concat sep (y :: xs))%string.
Proof. reflexivity. Qed.

Lemma concat_app_cons (sep y : string) (xs ys : list string) :
  String.concat sep (xs ++ y :: ys)
  = (String.concat sep xs
     ++ match xs with [] => "" | _ => sep end
     ++ y
     ++ match ys with [] => "" | _ => sep ++ String.concat sep ys end)%string.
Proof.
  induction xs as [|x [|x' xs] IH].
  - destruct ys; cbn [app String.concat String.append];
      [now rewrite append_empty | reflexivity].
  - cbn [app] in *. rewrite concat_cons2, IH. cbn [String.concat String.append].
    reflexivity.
  - change ((x :: x' :: xs) ++ y :: ys) with (x :: x' :: (xs ++ y :: ys)).
    rewrite !concat_cons2.
    change (x' :: xs ++ y :: ys) with ((x' :: xs) ++ y :: ys).
    rewrite IH, !append_assoc_string. reflexivity.
Qed.

(** The context block holds every retrieved fragment in full, each on a
    line of its own behind a two-character bullet: around any fragment,
    the block is the block of the fragments before it, a line break, the
    bullet and the fragment itself, a line break, and the block of the
    fragments after it.  Nothing is dropped or cut: the length of the
    block is the sum of the fragment lengths, two per bullet, and the
    line breaks. *)
Theorem context_keeps_every_fragment (before after : list string) (f : string) :
  context_of (before ++ f :: after)
  = (context_of before
     ++ match before with [] => "" | _ => nl end
     ++ "- " ++ f
     ++ match after with [] => "" | _ => nl ++ context_of after end)%string
  /\ forall fragments,
       String.length (context_of fragments)
       = list_sum (map (fun f => 2 + String.length f) fragments)
         + (length fragments - 1).
Proof.
  split.
  - unfold context_of. rewrite map_app. cbn [map]. rewrite concat_app_cons.
    destruct before, after; reflexivity.
  - intro fragments. unfold context_of.
    induction fragments as [|f0 [|f' fs] IH].
    + reflexivity.
    + cbn. lia.
    + cbn [map]. rewrite concat_cons2, !length_append_string.
      cbn [map] in IH. rewrite IH. cbn. lia.
Qed.

(* ----------------------------------------------------------------- *)
(** *** [enhanced_query] *)

Lemma substring_all (s : string) (n : nat) :
  String.length s <= n -> substring 0 n s = s.
Proof.
  revert n. induction s as [|c s IH]; intros n Hn.
  - destruct n; reflexivity.
  - destruct n; cbn in Hn; [lia|]. cbn. rewrite IH by lia. reflexivity.
Qed.

Lemma substring_length_le (s : string) (n : nat) :
  String.length (substring 0 n s) <= n.
Proof.
  revert n. induction s as [|c s IH]; intro n.
  - destruct n; cbn; lia.
  - destruct n; cbn; [lia|]. specialize (IH n). lia.
Qed.

Lemma slice_to_idempotent (n : nat) (s : string) :
  slice_to n (slice_to n s) = slice_to n s.
Proof. unfold slice_to. apply substring_all, substring_length_le. Qed.

(** The answer depends on the first five chunks and on the first 500
    characters of each: a run on the chunks cut that way is the same
    run. *)
Theorem enhanced_query_reads_bounded_context (question : string)
    (context_chunks : list Document) (w : World) :
  enhanced_query question context_chunks w
  = enhanced_query question
      (map (fun chunk => {| text := slice_to 500 (text chunk) |})
           (firstn 5 context_chunks)) w.
Proof.
  unfold enhanced_query. f_equal. f_equal. f_equal. unfold enhanced_context.
  rewrite firstn_map, firstn_firstn, map_map. cbn [text Nat.min].
  f_equal. apply map_ext. intro c. symmetry. apply slice_to_idempotent.
Qed.

Lemma concat_length_bound (n : nat) (xs : list string) :
  (forall x, In x xs -> String.length x <= n) ->
  String.length (String.concat nl xs) + 1 <= S n * length xs + (1 - length xs).
Proof.
  intro H. induction xs as [|x [|y xs] IH].
  - cbn. lia.
  - cbn. specialize (H x (or_introl eq_refl)). lia.
  - rewrite concat_cons2, !length_append_string.
    assert (Hx : String.length x <= n) by (apply H; now left).
    assert (IH' : String.length (String.concat nl (y :: xs)) + 1
                  <= S n * length (y :: xs) + (1 - length (y :: xs)))
      by (apply IH; intros z Hz; apply H; now right).
    cbn [length] in *. cbn [String.length nl]. cbn in IH'. cbn. lia.
Qed.

(** The context that [enhanced_query] puts in its prompt has at most
    2504 characters (five times 500, and four line breaks). *)
Theorem enhanced_context_bounded (context_chunks : list Document) :
  String.length (enhanced_context context_chunks) <= 2504.
Proof.
  unfold enhanced_context.
  set (xs := map (fun chunk => slice_to 500 (text chunk)) (firstn 5 context_chunks)).
  assert (Hlen : length xs <= 5).
  { unfold xs. rewrite length_map, length_firstn. lia. }
  assert (Hb : forall x, In x xs -> String.length x <= 500).
  { unfold xs. intros x Hx. apply in_map_iff in Hx as (c & <- & _).
    apply substring_length_le. }
  pose proof (@concat_length_bound 500 xs Hb) as H.
  destruct xs as [|x xs']; cbn [length] in *; [cbn; lia|].
  lia.
Qed.

(** A failure of the completion service is raised to the caller of
    [enhanced_query]. *)
Theorem enhanced_query_failure_propagates (question : string)
    (context_chunks : list Document) (w : World) (e : exn) :
  chat_completions_create
    (enhanced_request question (enhanced_context context_chunks)) = inl e ->
  enhanced_query question context_chunks w
  = Raises e (record_request
                (enhanced_request question (enhanced_context context_chunks)) w).
Proof.
  intro He. unfold enhanced_query. run_monad. rewrite He. reflexivity.
Qed.

(* ----------------------------------------------------------------- *)
(** *** The query loop of [main] *)

Lemma query_round_returns (query : string) (w : World) :
  exists printed,
    query_round query w
    = Returns printed (final_world (query_with_chain_of_thought query w))
    /\ length printed = 4.
Proof.
  unfold query_round. run_monad.
  destruct (query_with_chain_of_thought query w) as [r w1|e w1];
    eexists; split; reflexivity.
Qed.

Lemma query_loop_outcome (queries : list string) (w : World) :
  exists printed w1,
    query_loop queries w = Returns printed w1
    /\ length printed = 4 * length queries
    /\ graph w1 = graph w.
Proof.
  revert w. induction queries as [|query queries IH]; intro w.
  - exists [], w. repeat split.
  - destruct (query_round_returns query w) as (p & Hp & Hlen).
    destruct (IH (final_world (query_with_chain_of_thought query w)))
      as (rest & w1 & Hrest & Hlr & Hg).
    exists (p ++ rest), w1. cbn [query_loop]. unfold bind, ret.
    rewrite Hp, Hrest. repeat split.
    + rewrite length_app, Hlen, Hlr. cbn [length]. lia.
    + rewrite Hg. apply query_graph_unchanged.
Qed.

(** The loop over the questions raises nothing, whatever happens to each
    query: it prints four texts per question and leaves the graph as it
    was. *)
Theorem query_loop_never_raises (queries : list string) (w : World) :
  exists printed w1,
    query_loop queries w = Returns printed w1
    /\ length printed = 4 * length queries
    /\ graph w1 = graph w.
Proof. apply query_loop_outcome. Qed.

(** A query that raises is reported by an error line, and the loop goes
    on with the remaining questions. *)
Theorem failed_query_reported (query : string) (queries : list string)
    (w w1 : World) (e : exn) :
  query_with_chain_of_thought query w = Raises e w1 ->
  exists rest w2,
    query_loop queries w1 = Returns rest w2
    /\ query_loop (query :: queries) w
       = Returns ([(nl ++ rule)%string; ("QUERY: " ++ query)%string; rule;
                   ("Error: " ++ exception_text e)%string] ++ rest) w2.
Proof.
  intro Hq. destruct (query_loop_outcome queries w1) as (rest & w2 & Hr & _).
  exists rest, w2. split; [exact Hr|].
  cbn [query_loop]. unfold query_round. unfold bind, ret, try_except.
  rewrite Hq, Hr. reflexivity.
Qed.

End Pipeline.

(* ================================================================= *)
(** ** The results on the sample chunks *)

Local Abbreviation sample_extract client :=
  (extract_entities_from_chunk default_settings client MiniJson.loads).
Local Abbreviation sample_ingest :=
  (ingest_documents_semantically default_settings sample_client MiniJson.loads
     rejecting_store).
Local Abbreviation sample_chunk :=
  (ingest_chunk default_settings sample_client MiniJson.loads rejecting_store).
Local Abbreviation sample_request d :=
  (extraction_request default_settings (text d)).

(** A reply in prose does not decode: the extractor returns the fallback. *)
Lemma prose_reply_falls_back :
  sample_extract (scripted_client [(chunk_memory, replies reply_prose)])
    (text chunk_memory) initial_world
  = Returns {| entities := JArr []; relationships := JArr [];
               chunk_summary := JStr "" |}
            (record_request (sample_request chunk_memory) initial_world).
Proof.
  apply extraction_failure_yields_fallback. right.
  exists {| choices := [Some reply_prose] |}, reply_prose, reply_prose.
  repeat split; vm_compute; reflexivity.
Defined.

(** A reply with entities only: the two other fields take their defaults. *)
Lemma entities_only_reply_defaults :
  exists r,
    sample_extract (scripted_client [(chunk_memory, replies reply_entities_only)])
      (text chunk_memory) initial_world
    = Returns r (record_request (sample_request chunk_memory) initial_world)
    /\ relationships r = JArr []
    /\ chunk_summary r = JStr ""
    /\ entities r
       = JArr [JObj [("type", JStr "Component"); ("name", JStr "Guest OS")]].
Proof.
  destruct (@missing_fields_take_defaults default_settings
              (scripted_client [(chunk_memory, replies reply_entities_only)])
              MiniJson.loads (text chunk_memory) initial_world
              {| choices := [Some reply_entities_only] |}
              reply_entities_only reply_entities_only
              (JObj [("entities",
                      JArr [JObj [("type", JStr "Component");
                                  ("name", JStr "Guest OS")]])]))
    as (r & Hrun & _ & Hrel & Hsum & Hent & _);
    try (vm_compute; reflexivity).
  exists r. split; [exact Hrun|].
  split; [apply Hrel; reflexivity|].
  split; [apply Hsum; reflexivity|].
  apply Hent. reflexivity.
Defined.

(** A reply with two blocks tagged [json] yields the entities of the
    first. *)
Lemma tagged_fence_reply_parsed :
  sample_extract (scripted_client [(chunk_memory, replies reply_two_fences)])
    (text chunk_memory) initial_world
  = Returns
      {| entities :=
           JArr [JObj [("type", JStr "Concept"); ("name", JStr "Memory Management");
                       ("description", JStr "how memory is sized")];
                 JObj [("type", JStr "Component"); ("name", JStr "vSphere")]];
         relationships :=
           JArr [JObj [("from", JStr "Memory Management"); ("to", JStr "vSphere");
                       ("type", JStr "INVOLVES_COMPONENT")]];
         chunk_summary := JStr "Memory sizing on vSphere" |}
      (record_request (sample_request chunk_memory) initial_world).
Proof.
  assert (Hp : reply_payload
                 ("```json" ++ (nl ++ reply_memory ++ nl) ++ "```"
                  ++ (nl ++ "and a second block:" ++ nl
                      ++ "```json" ++ nl ++ reply_numa ++ nl ++ "```"))%string
                 (nl ++ reply_memory ++ nl)%string)
    by (apply payload_fenced; vm_compute; reflexivity).
  apply (proj1 (@tagged_fence_is_stripped default_settings
                  (scripted_client [(chunk_memory, replies reply_two_fences)])
                  MiniJson.loads (text chunk_memory) initial_world
                  {| choices := [Some reply_two_fences] |}
                  reply_two_fences (nl ++ reply_memory ++ nl)%string
                  ltac:(vm_compute; reflexivity) ltac:(vm_compute; reflexivity) Hp)
           (JObj [("entities",
                   JArr [JObj [("type", JStr "Concept");
                               ("name", JStr "Memory Management");
                               ("description", JStr "how memory is sized")];
                         JObj [("type", JStr "Component");
                               ("name", JStr "vSphere")]]);
                  ("relationships",
                   JArr [JObj [("from", JStr "Memory Management");
                               ("to", JStr "vSphere");
                               ("type", JStr "INVOLVES_COMPONENT")]]);
                  ("chunk_summary", JStr "Memory sizing on vSphere")])).
  vm_compute. reflexivity.
Defined.

(** C6, counterexample.  The same JSON inside a bare fence: its content
    decodes to an object with two entities, yet the extractor returns
    the empty fallback. *)
Lemma bare_fence_reply_degrades :
  (exists v, MiniJson.loads reply_memory = Some v
             /\ Py.truthy (field_or (JArr []) "entities" (top_level v)) = true)
  /\ sample_extract (scripted_client [(chunk_memory, replies reply_bare_fence)])
       (text chunk_memory) initial_world
     = Returns {| entities := JArr []; relationships := JArr [];
                  chunk_summary := JStr "" |}
               (record_request (sample_request chunk_memory) initial_world).
Proof.
  split.
  - eexists. split; vm_compute; reflexivity.
  - vm_compute. reflexivity.
Qed.

(** With the service down, the query raises the service's exception. *)
Lemma timed_out_query_raises :
  query_with_chain_of_thought default_settings failing_client sample_retrieve
    "How should I configure CPU affinity settings?" initial_world
  = Raises (APIError "Request timed out.")
      (record_request
         (cot_request default_settings
            "How should I configure CPU affinity settings?"
            (context_of ["Memory Management"; "numa.nodeAffinity"]))
         initial_world).
Proof.
  apply synthesis_failure_propagates; reflexivity.
Defined.

(** The table of contents has no entity: its chunk is passed over. *)
Lemma contents_chunk_skipped :
  sample_chunk 0 chunk_contents initial_world
  = Returns tt (record_request (sample_request chunk_contents) initial_world)
  /\ graph (record_request (sample_request chunk_contents) initial_world)
     = graph initial_world
  /\ for_enumerate 0 [chunk_contents; chunk_memory] sample_chunk initial_world
     = for_enumerate 1 [chunk_memory] sample_chunk
         (record_request (sample_request chunk_contents) initial_world).
Proof.
  apply (@empty_entities_chunk_skipped default_settings sample_client
           MiniJson.loads rejecting_store 0 chunk_contents [chunk_memory]
           initial_world _
           {| entities := JArr []; relationships := JArr [];
              chunk_summary := JStr "table of contents" |});
    vm_compute; reflexivity.
Defined.

(** C3, counterexample.  The store refuses the [MERGE] of an entity whose
    name is null.  With that chunk first, the run raises the store's
    exception: the chunk's Document node stays, and the next chunk is
    neither extracted nor written. *)
Lemma refused_write_stops_the_run :
  cypher (MergeEntity (JStr "Concept") JNull (JStr ""))
    {| nodes := [{| node_id := 1; labels := ["Document"];
                    props := [("chunk_id", JStr "chunk_0");
                              ("summary", JStr "untitled")] |}];
       edges := [] |}
  = Some (inl (Neo4jError "Neo.ClientError.Statement.SemanticError"))
  /\ sample_ingest [chunk_untitled; chunk_memory] initial_world
     = Raises (Neo4jError "Neo.ClientError.Statement.SemanticError")
         {| graph :=
              {| nodes := [{| node_id := 1; labels := ["Document"];
                              props := [("chunk_id", JStr "chunk_0");
                                        ("summary", JStr "untitled")] |}];
                 edges := [] |};
            sent := [sample_request chunk_untitled] |}.
Proof. split; vm_compute; reflexivity. Qed.

(** The refused write in the middle of a run of three chunks: the [MERGE]
    of the second chunk's entity, whose name is null. *)
Lemma refused_write_mid_run :
  sample_ingest [chunk_memory; chunk_untitled; chunk_numa] initial_world
  = Raises (Neo4jError "Neo.ClientError.Statement.SemanticError")
      (with_graph
         (create_document "chunk_1" (Some "untitled")
            (graph (final_world (sample_ingest [chunk_memory] initial_world))))
         (record_request (sample_request chunk_untitled)
            (final_world (sample_ingest [chunk_memory] initial_world))))
  /\ sent (with_graph
             (create_document "chunk_1" (Some "untitled")
                (graph (final_world (sample_ingest [chunk_memory] initial_world))))
             (record_request (sample_request chunk_untitled)
                (final_world (sample_ingest [chunk_memory] initial_world))))
     = sent initial_world
       ++ requests_of default_settings ([chunk_memory] ++ [chunk_untitled]).
Proof.
  apply (@refused_write_aborts_run default_settings sample_client MiniJson.loads
           rejecting_store [chunk_memory; chunk_untitled; chunk_numa]
           [chunk_memory] [chunk_numa] chunk_untitled
           {| entities := JArr [JObj [("type", JStr "Concept"); ("name", JNull)]];
              relationships := JArr [];
              chunk_summary := JStr "untitled" |}
           initial_world
           (final_world (sample_ingest [chunk_memory] initial_world))
           (record_request (sample_request chunk_untitled)
              (final_world (sample_ingest [chunk_memory] initial_world))));
    [vm_compute; reflexivity .. |].
  apply (@entity_refused rejecting_store 1 _ _ _
           (create_document "chunk_1" (Some "untitled")
              (graph (final_world (sample_ingest [chunk_memory] initial_world))))
           [] []
           (JObj [("type", JStr "Concept"); ("name", JNull)])
           (with_graph
              (create_document "chunk_1" (Some "untitled")
                 (graph (final_world (sample_ingest [chunk_memory] initial_world))))
              (record_request (sample_request chunk_untitled)
                 (final_world (sample_ingest [chunk_memory] initial_world)))));
    [vm_compute; reflexivity .. |].
  apply (@merge_refused rejecting_store "chunk_1" _ _ _
           (JStr "Concept") JNull (JStr ""));
    vm_compute; reflexivity.
Defined.



(** C9, counterexample.  No node is named [Configure NUMA settings].  A
    relationship from that name whose type is not a symbolic name is
    not dropped in silence by a store that refuses the statement: the
    store's exception reaches the caller.  Nor is one without a [type]:
    the statement text cannot be built and the lookup raises. *)
Lemma unmatched_relationship_raises :
  filter (has_prop "name" "Configure NUMA settings") (nodes (graph named_world)) = []
  /\ ingest_relationship rejecting_store
       (JObj [("from", JStr "Configure NUMA settings");
              ("to", JStr "numa.nodeAffinity"); ("type", JStr "DEPENDS ON")])
       named_world
     = Raises (Neo4jError "Neo.ClientError.Statement.SyntaxError") named_world
  /\ ingest_relationship rejecting_store
       (JObj [("from", JStr "Configure NUMA settings");
              ("to", JStr "numa.nodeAffinity")])
       named_world
     = Raises (KeyError "type") named_world.
Proof. repeat split; vm_compute; reflexivity. Qed.

(** No node is named [Configure NUMA settings]: the relationship from it
    changes nothing. *)
Lemma dangling_relationship_dropped :
  ingest_relationship rejecting_store dangling_relationship named_world
  = Returns tt named_world.
Proof.
  apply (proj1 (@unmatched_relationship_dropped rejecting_store
                  dangling_relationship "SETS_PARAMETER"
                  "Configure NUMA settings" "numa.nodeAffinity" named_world
                  eq_refl eq_refl eq_refl eq_refl)).
  left. intros n [<-|[<-|[<-|[<-|[]]]]]; discriminate.
Defined.

(** C1, counterexample.  One chunk, ingested twice: the first pass leaves
    three nodes and three edges, the second four nodes and five edges,
    two of the nodes being Document nodes of the same chunk. *)
Lemma second_pass_inflates_counts :
  exists w1 w2,
    sample_ingest [chunk_memory] initial_world = Returns tt w1
    /\ sample_ingest [chunk_memory] w1 = Returns tt w2
    /\ length (nodes (graph w1)) = 3 /\ length (edges (graph w1)) = 3
    /\ length (nodes (graph w2)) = 4 /\ length (edges (graph w2)) = 5
    /\ length (filter (has_prop "chunk_id" "chunk_0") (nodes (graph w2))) = 2.
Proof.
  exists (final_world (sample_ingest [chunk_memory] initial_world)).
  exists (final_world
            (sample_ingest [chunk_memory]
               (final_world (sample_ingest [chunk_memory] initial_world)))).
  repeat split; vm_compute; reflexivity.
Qed.

(** Three chunks, ingested twice from the empty graph. *)
Lemma sample_second_pass :
  exists w1 w2,
    sample_ingest [chunk_memory; chunk_numa; chunk_contents] initial_world
    = Returns tt w1
    /\ sample_ingest [chunk_memory; chunk_numa; chunk_contents] w1 = Returns tt w2
    /\ unique_entities (graph w2)
    /\ NoDup (edges (graph w2))
    /\ (forall l n, count_entity l n (graph w2) = count_entity l n (graph w1))
    /\ length (nodes (graph w2))
       = length (nodes (graph w1))
         + chunks_with_entities default_settings sample_client MiniJson.loads
             [chunk_memory; chunk_numa; chunk_contents].
Proof.
  apply second_pass_adds_documents_only.
  - intros d [<-|[<-|[<-|[]]]]; vm_compute; reflexivity.
  - intros l n. cbn. lia.
  - constructor.
Defined.

(* ================================================================= *)
(** ** Further results on the sample chunks *)

(** A response with no choice gives the empty result. *)
Lemma silent_reply_falls_back :
  sample_extract silent_client (text chunk_memory) initial_world
  = Returns fallback (record_request (sample_request chunk_memory) initial_world).
Proof.
  apply (@missing_content_yields_fallback default_settings silent_client
           MiniJson.loads (text chunk_memory) initial_world
           {| choices := [] |} eq_refl).
  left. reflexivity.
Defined.

(** A reply that is a JSON list gives the empty result. *)
Lemma list_reply_falls_back :
  sample_extract (scripted_client [(chunk_memory, replies reply_list)])
    (text chunk_memory) initial_world
  = Returns fallback (record_request (sample_request chunk_memory) initial_world).
Proof.
  apply (@non_object_reply_yields_fallback default_settings
           (scripted_client [(chunk_memory, replies reply_list)])
           MiniJson.loads (text chunk_memory) initial_world
           {| choices := [Some reply_list] |} reply_list reply_list
           (JArr [JInt 1; JInt 2]));
    try (vm_compute; reflexivity).
  intros members H. discriminate H.
Defined.

(** A tagged fence cut short. *)
Lemma cut_short_fence_payload :
  strip_code_fence ("```json" ++ reply_entities_only) = inr reply_entities_only.
Proof. apply unclosed_fence_payload. vm_compute. reflexivity. Defined.

(** A reply whose [entities] is null: the chunk is passed over. *)
Lemma null_entities_chunk_skipped :
  ingest_chunk default_settings
    (scripted_client [(chunk_cover, replies reply_null_entities)])
    MiniJson.loads rejecting_store 0 chunk_cover initial_world
  = Returns tt (record_request (sample_request chunk_cover) initial_world)
  /\ graph (record_request (sample_request chunk_cover) initial_world)
     = graph initial_world.
Proof.
  apply (@falsy_entities_chunk_skipped default_settings
           (scripted_client [(chunk_cover, replies reply_null_entities)])
           MiniJson.loads rejecting_store 0 chunk_cover initial_world _
           {| entities := JNull; relationships := JArr [];
              chunk_summary := JStr "cover page" |});
    vm_compute; reflexivity.
Defined.

(** With the service down, a chunk is passed over. *)
Lemma service_down_chunk_skipped :
  ingest_chunk default_settings failing_client MiniJson.loads rejecting_store
    0 chunk_memory initial_world
  = Returns tt (record_request (sample_request chunk_memory) initial_world).
Proof.
  apply (@service_failure_skips_chunk default_settings failing_client
           MiniJson.loads rejecting_store 0 chunk_memory initial_world
           (APIError "Request timed out.")).
  reflexivity.
Defined.

(** With the service down, a run writes nothing. *)
Lemma service_down_run_writes_nothing :
  ingest_documents_semantically default_settings failing_client MiniJson.loads
    rejecting_store [chunk_memory; chunk_numa] initial_world
  = Returns tt
      {| graph := graph initial_world;
         sent := sent initial_world
                 ++ requests_of default_settings
                      (firstn 20 [chunk_memory; chunk_numa]) |}.
Proof.
  apply run_without_entities_writes_nothing.
  intros d [<-|[<-|[]]]; vm_compute; reflexivity.
Defined.

(** The requests of a run over two chunks. *)
Lemma sample_run_requests :
  sent (final_world (sample_ingest [chunk_memory; chunk_contents] initial_world))
  = sent initial_world
    ++ requests_of default_settings (firstn 20 [chunk_memory; chunk_contents]).
Proof.
  apply (@returning_run_requests default_settings sample_client MiniJson.loads
           rejecting_store [chunk_memory; chunk_contents] initial_world).
  vm_compute. reflexivity.
Defined.


(** A relationship from null. *)
Lemma null_relationship_dropped :
  ingest_relationship rejecting_store null_relationship named_world
  = Returns tt named_world.
Proof.
  apply (@null_endpoint_relationship_dropped rejecting_store null_relationship
           "AFFECTS" None (Some "vSphere") named_world eq_refl).
  left. reflexivity.
Defined.

(** A run over three chunks deletes nothing of the graph it starts from. *)
Lemma sample_run_keeps :
  exists w1,
    sample_ingest [chunk_memory; chunk_numa; chunk_contents] named_world
    = Returns tt w1
    /\ incl (edges (graph named_world)) (edges (graph w1))
    /\ forall x, In x (nodes (graph named_world)) ->
         exists x', In x' (nodes (graph w1))
           /\ node_id x' = node_id x
           /\ labels x' = labels x
           /\ forall k, String.eqb k "description" = false ->
                        prop k x' = prop k x.
Proof.
  apply run_keeps_nodes_and_edges.
  intros d [<-|[<-|[<-|[]]]]; vm_compute; reflexivity.
Defined.

(** The component [vSphere] gets the description of its latest mention. *)
Lemma vsphere_description_overwritten :
  exists g',
    ingest_entity rejecting_store "chunk_0" described_entity named_world
    = Returns tt (with_graph g' named_world)
    /\ 1 <= count_entity "Component" "vSphere" g'
    /\ forall x, In x (nodes g') -> entity_match "Component" "vSphere" x = true ->
                 prop "description" x
                 = option_map JStr (Some "the hypervisor platform").
Proof. apply entity_description_overwritten. reflexivity. Defined.


(** Both sample chunks mention [vSphere]; each is linked to it. *)
Lemma sample_chunks_linked :
  exists w1,
    sample_ingest [chunk_memory; chunk_numa] initial_world = Returns tt w1
    /\ forall j doc l n d,
         nth_error (firstn 20 [chunk_memory; chunk_numa]) j = Some doc ->
         In (l, n, d)
            (entity_list (fields_of default_settings sample_client MiniJson.loads doc)) ->
         linked (chunk_id_of j) l n (graph w1).
Proof.
  apply chunks_linked_after_run.
  intros d [<-|[<-|[]]]; vm_compute; reflexivity.
Defined.

(** The sample run on a cleared store. *)
Lemma sample_run_after_clear :
  exists w1,
    (clear_graph ;;; sample_ingest [chunk_memory; chunk_numa])%py named_world
    = Returns tt w1
    /\ unique_entities (graph w1)
    /\ NoDup (edges (graph w1)).
Proof.
  apply run_after_clear_unique.
  intros d [<-|[<-|[]]]; vm_compute; reflexivity.
Defined.

(** With the store out of reach, the query raises and sends nothing. *)
Lemma unreachable_store_query :
  query_with_chain_of_thought default_settings answering_client
    unreachable_retrieve "What are the NUMA configuration recommendations for SAP HANA?"
    initial_world
  = Raises (RetrievalError "graph store unavailable") initial_world.
Proof. apply retrieval_failure_sends_nothing. reflexivity. Defined.

(** The answer of the service is returned as it is. *)
Lemma sample_answer_verbatim :
  query_with_chain_of_thought default_settings answering_client sample_retrieve
    "How should I configure CPU affinity settings?" initial_world
  = Returns (Some "Check numa.nodeAffinity and sched.cpu.affinity.")
      (record_request
         (cot_request default_settings
            "How should I configure CPU affinity settings?"
            (context_of ["Memory Management"; "numa.nodeAffinity"]))
         initial_world).
Proof.
  apply (@query_returns_first_choice default_settings answering_client
           sample_retrieve "How should I configure CPU affinity settings?"
           initial_world ["Memory Management"; "numa.nodeAffinity"]
           {| choices := [Some "Check numa.nodeAffinity and sched.cpu.affinity."] |}
           (Some "Check numa.nodeAffinity and sched.cpu.affinity.") []);
    reflexivity.
Defined.

(** A response with no choice makes the query raise. *)
Lemma silent_answer_raises :
  query_with_chain_of_thought default_settings silent_client sample_retrieve
    "How should I configure CPU affinity settings?" initial_world
  = Raises IndexError
      (record_request
         (cot_request default_settings
            "How should I configure CPU affinity settings?"
            (context_of ["Memory Management"; "numa.nodeAffinity"]))
         initial_world).
Proof.
  apply (@query_without_choices_raises default_settings silent_client
           sample_retrieve "How should I configure CPU affinity settings?"
           initial_world ["Memory Management"; "numa.nodeAffinity"]
           {| choices := [] |});
    reflexivity.
Defined.

(** With the service down, [enhanced_query] raises. *)
Lemma enhanced_query_service_down :
  enhanced_query default_settings failing_client
    "How do I configure NUMA settings for SAP HANA on vSphere?"
    [chunk_memory; chunk_numa] initial_world
  = Raises (APIError "Request timed out.")
      (record_request
         (enhanced_request default_settings
            "How do I configure NUMA settings for SAP HANA on vSphere?"
            (enhanced_context [chunk_memory; chunk_numa]))
         initial_world).
Proof. apply enhanced_query_failure_propagates. reflexivity. Defined.

(** With the service down, every question of [main] is reported as an
    error and the loop reaches the last one. *)
Lemma first_question_fails_loop_goes_on :
  exists rest w2,
    query_loop default_settings failing_client sample_retrieve
      sample_exception_text (tl test_queries)
      (final_world
         (query_with_chain_of_thought default_settings failing_client
            sample_retrieve (hd EmptyString test_queries) initial_world))
    = Returns rest w2
    /\ query_loop default_settings failing_client sample_retrieve
         sample_exception_text (hd EmptyString test_queries :: tl test_queries)
         initial_world
       = Returns ([(nl ++ rule)%string;
                   ("QUERY: " ++ hd EmptyString test_queries)%string; rule;
                   ("Error: " ++ sample_exception_text
                                   (APIError "Request timed out."))%string]
                  ++ rest) w2.
Proof.
  apply (@failed_query_reported default_settings failing_client sample_retrieve
           sample_exception_text (hd EmptyString test_queries) (tl test_queries)
           initial_world).
  reflexivity.
Defined.
